(** * Smart Crop Advisory API: OTP authentication and session core

    A shallow embedding of [src/main.py] and [src/schemas.py]: the
    document store the handlers talk to, the handlers themselves as
    computations over an explicit world, and the properties of the
    authentication flow stated over them. *)

From Stdlib Require Import ZArith NArith List String Ascii Decimal.
From Stdlib.Strings Require Import Byte.
From Stdlib Require DecimalFacts DecimalPos DecimalN.
From Stdlib Require Import PrimFloat.
From Stdlib Require FloatOps SpecFloat.
From stdpp Require Import base option list gmap strings.

Local Open Scope Z_scope.

(** ** Python values *)

(** A Python [str] is a sequence of Unicode code points. *)
Abbreviation str := (list N).

(** An ASCII literal of the source as a [str]. *)
Definition py (s : string) : str :=
  map N_of_ascii (list_ascii_of_string s).

(** [datetime] values are instants on the UTC time line, counted in
    microseconds, the resolution of [datetime]. *)
Abbreviation datetime := Z.

Definition timedelta_minutes (m : Z) : Z := m * 60 * 1000000.
Definition timedelta_days (d : Z) : Z := d * 24 * 3600 * 1000000.

(** The values a stored document holds in this program. *)
Inductive Value :=
| VNull
| VBool (b : bool)
| VStr (s : str)
| VTime (t : datetime)
| VList (l : list str).

#[global] Instance Value_eq_dec : EqDecision Value.
Proof. solve_decision. Defined.

(** A document (a Python [dict] with string keys). *)
Abbreviation doc := (gmap string Value).

(** [d.get(k)]: the value under [k], [None] when the key is absent. *)
Definition dict_get (d : doc) (k : string) : Value :=
  default VNull (d !! k).

(** Python truthiness, as [if v] and [a and b] test it.  A [datetime]
    is always true. *)
Definition truthy (v : Value) : bool :=
  match v with
  | VNull => false
  | VBool b => b
  | VStr s => negb (bool_decide (s = []))
  | VTime _ => true
  | VList l => negb (bool_decide (l = []))
  end.

(** [Optional[str]] fields of a request, as they are stored. *)
Definition of_opt (o : option str) : Value :=
  match o with
  | Some s => VStr s
  | None => VNull
  end.

(** [a or b] on an optional string and a string. *)
Definition str_or (a : option str) (b : str) : str :=
  match a with
  | Some s => if bool_decide (s = []) then b else s
  | None => b
  end.

(** ** Exceptions *)

Inductive Exception :=
| HTTPException (status_code : Z) (detail : string)
| KeyError (key : string)
| TypeError.

#[global] Instance Exception_eq_dec : EqDecision Exception.
Proof. solve_decision. Defined.

(** The error taxonomy of the design, as the handlers raise it. *)
Definition InvalidCredential : Exception := HTTPException 400 "Invalid OTP".
Definition CredentialExpired : Exception := HTTPException 400 "OTP expired".
Definition Unauthenticated : Exception := HTTPException 401 "Invalid token".
Definition SessionExpired : Exception := HTTPException 401 "Session expired".
Definition StorageUnavailable : Exception :=
  HTTPException 500 "Database not configured".

Inductive Result (A : Type) :=
| Ok (a : A)
| Raise (e : Exception).
Arguments Ok {A} a.
Arguments Raise {A} e.

(** ** The world a handler runs in *)

(** The database maps a collection name to its documents in insertion
    order; a name never written to is an empty collection. *)
Abbreviation Database := (gmap string (list doc)).

Record World := mkWorld {
  db : option Database;       (* [database.db]; [None] when not configured *)
  clock : nat -> datetime;    (* successive readings of the system clock *)
  ticks : nat;                (* readings taken so far *)
  entropy : nat -> N;         (* successive draws of [secrets.randbelow] *)
  draws : nat;
  tokens : nat -> str;        (* successive results of [secrets.token_urlsafe] *)
  minted : nat
}.

(** The next reading of the clock. *)
Definition now (w : World) : datetime := clock w (ticks w).

Definition set_db (d : option Database) (w : World) : World :=
  mkWorld d (clock w) (ticks w) (entropy w) (draws w) (tokens w) (minted w).

Definition tick (w : World) : World :=
  mkWorld (db w) (clock w) (S (ticks w)) (entropy w) (draws w) (tokens w) (minted w).

Definition drawn (w : World) : World :=
  mkWorld (db w) (clock w) (ticks w) (entropy w) (S (draws w)) (tokens w) (minted w).

Definition mint (w : World) : World :=
  mkWorld (db w) (clock w) (ticks w) (entropy w) (draws w) (tokens w) (S (minted w)).

(** A computation reads and updates the world and returns or raises.
    What was written before an exception stays written. *)
Definition M (A : Type) : Type := World -> Result A * World.

Definition ret {A} (a : A) : M A := fun w => (Ok a, w).

Definition raise {A} (e : Exception) : M A := fun w => (Raise e, w).

Definition bind {A B} (c : M A) (k : A -> M B) : M B :=
  fun w =>
    match c w with
    | (Ok a, w') => k a w'
    | (Raise e, w') => (Raise e, w')
    end.

Declare Scope py_scope.
Delimit Scope py_scope with py.
Notation "x <- c ;; k" := (bind c (fun x => k))
  (at level 100, c at next level, right associativity) : py_scope.
Notation "c ;; k" := (bind c (fun _ => k))
  (at level 100, right associativity) : py_scope.
Local Open Scope py_scope.

(** ** Utility helpers *)

Definition now_utc : M datetime :=
  fun w => (Ok (now w), tick w).

(** [secrets.randbelow(n)]: a draw in [0, n). *)
Definition randbelow (n : N) : M N :=
  fun w => (Ok (entropy w (draws w) mod n)%N, drawn w).

(** [secrets.token_urlsafe(24)]. *)
Definition token_urlsafe : M str :=
  fun w => (Ok (tokens w (minted w)), mint w).

(** A handle on a collection is its name: the documents live in the
    world, and every access through the handle sees the current ones. *)
Definition get_collection (name : string) : M string :=
  fun w =>
    match db w with
    | None => (Raise StorageUnavailable, w)
    | Some _ => (Ok name, w)
    end.

(** The documents of a collection. *)
Definition documents (name : string) (w : World) : list doc :=
  match db w with
  | Some d => default [] (d !! name)
  | None => []
  end.

(** ** Queries of the document store *)

(** An equality condition [{field: value}] on a string value; an array
    field matches when it holds the value. *)
Definition matches (field : string) (value : str) (d : doc) : bool :=
  match d !! field with
  | Some (VStr s) => bool_decide (s = value)
  | Some (VList l) => bool_decide (value ∈ l)
  | _ => false
  end.

(** [find_one({field: value})]: the first match in insertion order. *)
Definition find_first (field : string) (value : str) (l : list doc) : option doc :=
  head (filter (fun d => matches field value d = true) l).

(** The sort key of a document on a date field; a value that is not a
    date sorts below every date. *)
Definition sort_key (field : string) (d : doc) : option datetime :=
  match d !! field with
  | Some (VTime t) => Some t
  | _ => None
  end.

Definition key_ltb (a b : option datetime) : bool :=
  match a, b with
  | None, Some _ => true
  | Some x, Some y => x <? y
  | _, _ => false
  end.

(** The first document of highest key: what a stable descending sort
    puts in front. *)
Fixpoint first_max (field : string) (l : list doc) : option doc :=
  match l with
  | [] => None
  | d :: l' =>
      match first_max field l' with
      | Some d' => if key_ltb (sort_key field d) (sort_key field d')
                   then Some d' else Some d
      | None => Some d
      end
  end.

(** [find_one({field: value}, sort=[(by, -1)])]. *)
Definition find_latest (field : string) (value : str) (by_ : string)
    (l : list doc) : option doc :=
  first_max by_ (filter (fun d => matches field value d = true) l).

(** [update_one({field: value}, {"$set": upd})] on the documents: the
    first match takes the new fields, the rest of it is kept. *)
Fixpoint set_first (field : string) (value : str) (upd : doc)
    (l : list doc) : list doc :=
  match l with
  | [] => []
  | d :: l' =>
      if matches field value d then (upd ∪ d) :: l'
      else d :: set_first field value upd l'
  end.

Definition find_one (coll : string) (field : string) (value : str) : M (option doc) :=
  fun w => (Ok (find_first field value (documents coll w)), w).

Definition find_one_sorted (coll : string) (field : string) (value : str)
    (by_ : string) : M (option doc) :=
  fun w => (Ok (find_latest field value by_ (documents coll w)), w).

Definition update_one (coll : string) (field : string) (value : str)
    (upd : doc) : M unit :=
  fun w =>
    match db w with
    | Some d =>
        (Ok tt, set_db (Some (<[coll := set_first field value upd (documents coll w)]> d)) w)
    | None => (Raise StorageUnavailable, w)
    end.

(** ** Schemas ([src/schemas.py]) *)

(** A schema is a model that dumps to a document. *)
Class BaseModel (A : Type) := model_dump : A -> doc.

Module Farmer.
Record t := mk {
    farmer_id : str;
    name : option str;
    phone : str;
    aadhaar : option str;
    language : option str;
    location : option str;
    crops : list str;
    soil_type : option str
}.
End Farmer.

#[global] Instance Farmer_model : BaseModel Farmer.t := fun f =>
  <["farmer_id" := VStr (Farmer.farmer_id f)]>
  (<["name" := of_opt (Farmer.name f)]>
  (<["phone" := VStr (Farmer.phone f)]>
  (<["aadhaar" := of_opt (Farmer.aadhaar f)]>
  (<["language" := of_opt (Farmer.language f)]>
  (<["location" := of_opt (Farmer.location f)]>
  (<["crops" := VList (Farmer.crops f)]>
  (<["soil_type" := of_opt (Farmer.soil_type f)]> ∅))))))).

Module OTPRequest.
Record t := mk {
    farmer_id : option str;
    phone : str;
    otp : str;
    expires_at : datetime;
    verified : bool
}.
End OTPRequest.

#[global] Instance OTPRequest_model : BaseModel OTPRequest.t := fun o =>
  <["farmer_id" := of_opt (OTPRequest.farmer_id o)]>
  (<["phone" := VStr (OTPRequest.phone o)]>
  (<["otp" := VStr (OTPRequest.otp o)]>
  (<["expires_at" := VTime (OTPRequest.expires_at o)]>
  (<["verified" := VBool (OTPRequest.verified o)]> ∅)))).

Module Session.
Record t := mk {
    farmer_id : str;
    token : str;
    created_at : datetime;
    expires_at : datetime
}.
End Session.

#[global] Instance Session_model : BaseModel Session.t := fun s =>
  <["farmer_id" := VStr (Session.farmer_id s)]>
  (<["token" := VStr (Session.token s)]>
  (<["created_at" := VTime (Session.created_at s)]>
  (<["expires_at" := VTime (Session.expires_at s)]> ∅))).

(** Modelled from the spec: [create_document] of the [database] module,
    which is not among the sources.  A challenge, a profile and a session
    are each persisted as one new record of their collection, never in
    place of an earlier one, and a record carries its creation timestamp;
    without a configured backend the call fails with
    [StorageUnavailable]. *)
Definition create_document {A} `{BaseModel A} (collection_name : string)
    (data : A) : M unit :=
  fun w =>
    match db w with
    | None => (Raise StorageUnavailable, w)
    | Some d =>
        let record := <["created_at" := VTime (now w)]> (model_dump data) in
        (Ok tt,
         set_db (Some (<[collection_name :=
                          documents collection_name w ++ [record]]> d))
                (tick w))
    end.

(** ** Request and response models ([src/main.py]) *)

Module OTPStartRequest.
Record t := mk {
    phone : str;
    farmer_id : option str
}.
End OTPStartRequest.

Module OTPVerifyRequest.
Record t := mk {
    phone : str;
    otp : str;
    farmer_id : option str;
    aadhaar : option str;
    language : option str;
    name : option str;
    location : option str
}.
End OTPVerifyRequest.

Module TokenResponse.
Record t := mk {
    token : str;
    farmer_id : str;
    expires_in : Z
}.
End TokenResponse.

(** The answer of [request_otp]. *)
Module OTPSent.
Record t := mk {
    message : string;
    phone : str;
    demo_otp : str
}.
End OTPSent.

(** ** String helpers *)

(** The decimal digits of a number, most significant first. *)
Fixpoint uint_digits (u : Decimal.uint) : str :=
  match u with
  | Nil => []
  | D0 u => 48%N :: uint_digits u
  | D1 u => 49%N :: uint_digits u
  | D2 u => 50%N :: uint_digits u
  | D3 u => 51%N :: uint_digits u
  | D4 u => 52%N :: uint_digits u
  | D5 u => 53%N :: uint_digits u
  | D6 u => 54%N :: uint_digits u
  | D7 u => 55%N :: uint_digits u
  | D8 u => 56%N :: uint_digits u
  | D9 u => 57%N :: uint_digits u
  end.

(** [f"{n:06d}"]: decimal, padded with zeros on the left to six. *)
Definition format_06d (n : N) : str :=
  let ds := uint_digits (N.to_uint n) in
  replicate (6 - length ds) 48%N ++ ds.

(** [s.replace(old, new)] for one-character [old] and [new]. *)
Definition replace (old new : N) (s : str) : str :=
  map (fun c => if bool_decide (c = old) then new else c) s.

(** [s[:-4]] and [s[-4:]]. *)
Definition all_but_last4 (s : str) : str := take (length s - 4) s.
Definition last4 (s : str) : str := drop (length s - 4) s.

Definition mask_phone (phone : str) : str :=
  replace 49%N 42%N (replace 48%N 42%N (all_but_last4 phone)) ++ last4 phone.

(** ** Handlers ([src/main.py]) *)

(** [d[k]]. *)
Definition getitem (d : doc) (k : string) : M Value :=
  match d !! k with
  | Some v => ret v
  | None => raise (KeyError k)
  end.

(** [v < t] for a [datetime] [t]: only a [datetime] compares with it. *)
Definition lt_datetime (v : Value) (t : datetime) : M bool :=
  match v with
  | VTime e => ret (e <? t)
  | _ => raise TypeError
  end.

(** The session dependency.  A document found by its token is not the
    empty dict, so [not s] holds for [None] alone. *)
Definition require_session (token : str) : M Value :=
  sessions <- get_collection "session" ;;
  s <- find_one sessions "token" token ;;
  match s with
  | None => raise Unauthenticated
  | Some s =>
      expired <-
        (if truthy (dict_get s "expires_at")
         then (e <- getitem s "expires_at" ;;
               t <- now_utc ;;
               lt_datetime e t)
         else ret false) ;;
      if (expired : bool) then raise SessionExpired
      else getitem s "farmer_id"
  end.

Definition request_otp (payload : OTPStartRequest.t) : M OTPSent.t :=
  n <- randbelow 1000000 ;;
  let otp := format_06d n in
  t <- now_utc ;;
  let expires := t + timedelta_minutes 5 in
  let otp_doc :=
    OTPRequest.mk (OTPStartRequest.farmer_id payload)
                  (OTPStartRequest.phone payload) otp expires false in
  create_document "otprequest" otp_doc ;;
  let masked := mask_phone (OTPStartRequest.phone payload) in
  ret (OTPSent.mk "OTP sent" masked otp).

(** The fields [verify_otp] sets on a profile that exists. *)
Definition profile_update (payload : OTPVerifyRequest.t) (t : datetime) : doc :=
  <["phone" := VStr (OTPVerifyRequest.phone payload)]>
  (<["aadhaar" := of_opt (OTPVerifyRequest.aadhaar payload)]>
  (<["language" := of_opt (OTPVerifyRequest.language payload)]>
  (<["name" := of_opt (OTPVerifyRequest.name payload)]>
  (<["location" := of_opt (OTPVerifyRequest.location payload)]>
  (<["updated_at" := VTime t]> ∅))))).

Definition verify_otp (payload : OTPVerifyRequest.t) : M TokenResponse.t :=
  otps <- get_collection "otprequest" ;;
  latest <- find_one_sorted otps "phone" (OTPVerifyRequest.phone payload)
                            "created_at" ;;
  match latest with
  | None => raise InvalidCredential
  | Some latest =>
      if negb (bool_decide
                 (dict_get latest "otp" = VStr (OTPVerifyRequest.otp payload)))
      then raise InvalidCredential
      else
        expired <-
          (if truthy (dict_get latest "expires_at")
           then (e <- getitem latest "expires_at" ;;
                 t <- now_utc ;;
                 lt_datetime e t)
           else ret false) ;;
        if (expired : bool) then raise CredentialExpired
        else
          (* Upsert farmer profile *)
          farmers <- get_collection "farmer" ;;
          let fid := str_or (OTPVerifyRequest.farmer_id payload)
                            (OTPVerifyRequest.phone payload) in
          farmer_doc <- find_one farmers "farmer_id" fid ;;
          match farmer_doc with
          | None =>
              let farmer :=
                Farmer.mk fid (OTPVerifyRequest.name payload)
                          (OTPVerifyRequest.phone payload)
                          (OTPVerifyRequest.aadhaar payload)
                          (OTPVerifyRequest.language payload)
                          (OTPVerifyRequest.location payload) [] None in
              create_document "farmer" farmer
          | Some _ =>
              t <- now_utc ;;
              update_one farmers "farmer_id" fid (profile_update payload t)
          end ;;
          (* Create session *)
          token <- token_urlsafe ;;
          t1 <- now_utc ;;
          t2 <- now_utc ;;
          let sess := Session.mk fid token t1 (t2 + timedelta_days 7) in
          create_document "session" sess ;;
          ret (TokenResponse.mk token fid (7 * 24 * 3600))
  end.

(** The answer of [disease_detect]. *)
Module Diagnosis.
Record t := mk {
  crop : option str;
  diagnosis : string;
  treatment : string
}.
End Diagnosis.

(** [sum(content)] of a [bytes]. *)
Definition sum_bytes (content : list byte) : Z :=
  foldr (fun b acc => Z.of_N (Byte.to_N b) + acc) 0 content.

(** The image heuristic.  [score] is kept as its numerator: the source
    divides a residue modulo 100 by 100 and compares the quotient with
    0.6 and 0.3, which holds exactly when the residue exceeds 60 and
    30.  The [token] field of the form is received and never read. *)
Definition disease_detect (file : list byte) (crop : option str)
    (token : option str) : M Diagnosis.t :=
  let content := file in
  let size := Z.of_nat (length content) in
  if size <? 10000 then
    ret (Diagnosis.mk crop
           "Low confidence: image too small. Possible nutrient deficiency."
           "Apply balanced micronutrient spray; retake a clearer photo.")
  else
    let score := sum_bytes (take 5000 content) mod 100 in
    if 60 <? score then
      ret (Diagnosis.mk crop
             "Likely Leaf Blight"
             "Remove affected leaves, apply recommended fungicide (mancozeb).")
    else if 30 <? score then
      ret (Diagnosis.mk crop
             "Possible Powdery Mildew"
             "Improve airflow, apply sulfur-based spray during evening.")
    else
      ret (Diagnosis.mk crop
             "Aphid/Pest infestation suspected"
             "Use neem oil or appropriate insecticide; monitor sticky traps.").

(** ** Parts of the handlers, named for the proofs *)

(** [d.get("expires_at") and d["expires_at"] < now_utc()], the test
    both [require_session] and [verify_otp] make. *)
Definition expiry_check (d : doc) : M bool :=
  if truthy (dict_get d "expires_at")
  then (e <- getitem d "expires_at" ;;
        t <- now_utc ;;
        lt_datetime e t)
  else ret false.

(** The canonical farmer identifier [verify_otp] computes. *)
Definition canonical_id (payload : OTPVerifyRequest.t) : str :=
  str_or (OTPVerifyRequest.farmer_id payload) (OTPVerifyRequest.phone payload).

(** The profile [verify_otp] creates when none exists. *)
Definition new_profile (payload : OTPVerifyRequest.t) : Farmer.t :=
  Farmer.mk (canonical_id payload) (OTPVerifyRequest.name payload)
            (OTPVerifyRequest.phone payload)
            (OTPVerifyRequest.aadhaar payload)
            (OTPVerifyRequest.language payload)
            (OTPVerifyRequest.location payload) [] None.

(** What [verify_otp] does once the code is accepted: the upsert of the
    profile and the issue of the session. *)
Definition complete_verification (payload : OTPVerifyRequest.t)
    : M TokenResponse.t :=
  farmers <- get_collection "farmer" ;;
  let fid := canonical_id payload in
  farmer_doc <- find_one farmers "farmer_id" fid ;;
  match farmer_doc with
  | None => create_document "farmer" (new_profile payload)
  | Some _ =>
      t <- now_utc ;;
      update_one farmers "farmer_id" fid (profile_update payload t)
  end ;;
  token <- token_urlsafe ;;
  t1 <- now_utc ;;
  t2 <- now_utc ;;
  let sess := Session.mk fid token t1 (t2 + timedelta_days 7) in
  create_document "session" sess ;;
  ret (TokenResponse.mk token fid (7 * 24 * 3600)).

(** The mask in the words of the design: a character is replaced by the
    mask character when it stands before the last four and is "0" or
    "1", and is kept otherwise. *)
Definition mask_spec (phone : str) : str :=
  imap (fun i c =>
          if bool_decide (i + 4 < length phone)%nat
             && (bool_decide (c = 48%N) || bool_decide (c = 49%N))
          then 42%N else c) phone.

(** The farmer documents after the upsert of [payload] at time [t]. *)
Definition upserted (payload : OTPVerifyRequest.t) (t : datetime)
    (l : list doc) : list doc :=
  match find_first "farmer_id" (canonical_id payload) l with
  | None => l ++ [<["created_at" := VTime t]> (model_dump (new_profile payload))]
  | Some _ => set_first "farmer_id" (canonical_id payload) (profile_update payload t) l
  end.

(** The code and the challenge record [request_otp] produces in [w]. *)
Definition issued_code (w : World) : str :=
  format_06d (entropy w (draws w) mod 1000000)%N.

Definition issued_challenge (req : OTPStartRequest.t) (w : World) : doc :=
  <["created_at" := VTime (now (tick w))]>
    (model_dump (OTPRequest.mk (OTPStartRequest.farmer_id req)
                               (OTPStartRequest.phone req)
                               (issued_code w)
                               (now w + timedelta_minutes 5) false)).

(** A verification has completed between [w] and [w'] with answer [r]:
    the profile is upserted, one session bound to the canonical
    identifier is appended, and the challenges are as they were. *)
Definition completed (payload : OTPVerifyRequest.t) (w w' : World)
    (r : TokenResponse.t) : Prop :=
  exists t t1 t2 t3 tok,
    r = TokenResponse.mk tok (canonical_id payload) 604800 /\
    is_Some (db w') /\
    documents "farmer" w' = upserted payload t (documents "farmer" w) /\
    documents "session" w' =
      documents "session" w ++
      [<["created_at" := VTime t3]>
         (model_dump (Session.mk (canonical_id payload) tok
                                 t1 (t2 + timedelta_days 7)))] /\
    documents "otprequest" w' = documents "otprequest" w.

(** ** Example stores *)

Definition store (otps farmers sessions : list doc) : Database :=
  <["otprequest" := otps]> (<["farmer" := farmers]> (<["session" := sessions]> ∅)).

(** A world whose clock reads [t], [t + 1], ... and whose draws are
    483920, 483921, ... *)
Definition world_at (t : datetime) (d : Database) : World :=
  mkWorld (Some d) (fun n => t + Z.of_nat n) 0
          (fun n => 483920 + N.of_nat n)%N 0
          (fun _ => py "3q2-7wAAq83vEjRWeJq83u8SNFZ4mrze") 0.

Definition phone_ex : str := py "9876543210".

(** A stored challenge for [phone_ex] with code 483920, created at 0. *)
Definition challenge_ex (E : Value) : doc :=
  <["expires_at" := E]>
    (<["created_at" := VTime 0]>
       (model_dump (OTPRequest.mk None phone_ex (py "483920") 0 false))).

(** A stored session for [phone_ex]. *)
Definition session_ex (E : Value) : doc :=
  <["expires_at" := E]>
    (model_dump (Session.mk phone_ex (py "3q2-7wAAq83vEjRWeJq83u8SNFZ4mrze") 0 0)).

Definition verify_ex (otp : string) : OTPVerifyRequest.t :=
  OTPVerifyRequest.mk phone_ex (py otp) None None (Some (py "en")) None None.

(** A first verification for [phone_ex] that fills every profile field. *)
Definition full_verify_ex : OTPVerifyRequest.t :=
  OTPVerifyRequest.mk phone_ex (py "483920") None
    (Some (py "123412341234")) (Some (py "ta"))
    (Some (py "Ravi")) (Some (py "Madurai")).

Definition token_ex : str := py "3q2-7wAAq83vEjRWeJq83u8SNFZ4mrze".

(** ** Further parts named for the proofs *)

(** The session record a verification that ends in [w1] with token [tok]
    has stored: its three readings of the clock are the last three the
    verification took. *)
Definition issued_session (payload : OTPVerifyRequest.t) (tok : str)
    (w1 : World) : doc :=
  <["created_at" := VTime (clock w1 (ticks w1 - 1))]>
    (model_dump
       (Session.mk (canonical_id payload) tok
                   (clock w1 (ticks w1 - 3))
                   (clock w1 (ticks w1 - 2) + timedelta_days 7))).

(** Reading a string of decimal digits back; it stops at the first
    character that is not a digit. *)
Fixpoint digits_uint (s : str) : Decimal.uint :=
  match s with
  | [] => Nil
  | c :: s' =>
      if bool_decide (c = 48%N) then D0 (digits_uint s')
      else if bool_decide (c = 49%N) then D1 (digits_uint s')
      else if bool_decide (c = 50%N) then D2 (digits_uint s')
      else if bool_decide (c = 51%N) then D3 (digits_uint s')
      else if bool_decide (c = 52%N) then D4 (digits_uint s')
      else if bool_decide (c = 53%N) then D5 (digits_uint s')
      else if bool_decide (c = 54%N) then D6 (digits_uint s')
      else if bool_decide (c = 55%N) then D7 (digits_uint s')
      else if bool_decide (c = 56%N) then D8 (digits_uint s')
      else if bool_decide (c = 57%N) then D9 (digits_uint s')
      else Nil
  end.

Definition is_digit (c : N) : Prop := (48 <= c <= 57)%N.

(** ** Further example stores *)

Definition verified_world_ex : World :=
  world_at 1000 (store [challenge_ex (VTime 5000)] [] []).

(** A session of another farmer that happens to carry [token_ex]. *)
Definition foreign_session_ex : doc :=
  <["farmer_id" := VStr (py "F-0042")]> (session_ex (VTime 99999)).

(** A stored profile of another farmer. *)
Definition foreign_profile_ex : doc :=
  model_dump (Farmer.mk (py "F-0042") (Some (py "Meena")) (py "9000000001")
                        None (Some (py "ta")) None [] None).

(** ** The advisory endpoints ([src/main.py]) *)

(** The values of a JSON request body, as Python holds them once
    parsed: [None], [bool], [int], [float], [str], [list], [dict]. *)
#[warnings="-register-all"]
Inductive Json :=
| JNull
| JBool (b : bool)
| JInt (z : Z)
| JFloat (f : float)
| JStr (s : str)
| JArray (l : list Json)
| JObject (l : list (str * Json)).

(** A request body: a [dict] with string keys. *)
Abbreviation body := (gmap str Json).

(** [d.get(k, default)]. *)
Definition body_get (d : body) (k : string) (default : Json) : Json :=
  match d !! py k with
  | Some v => v
  | None => default
  end.

(** Truthiness of a parsed value.  A NaN is true; both zeros are
    false. *)
Definition json_truthy (v : Json) : bool :=
  match v with
  | JNull => false
  | JBool b => b
  | JInt z => negb (z =? 0)
  | JFloat f => negb (PrimFloat.eqb f 0%float)
  | JStr s => negb (bool_decide (s = []))
  | JArray l => match l with [] => false | _ => true end
  | JObject l => match l with [] => false | _ => true end
  end.

(** Truthiness of an optional string and of an optional list. *)
Definition truthy_opt {A} (o : option (list A)) : bool :=
  match o with
  | Some (_ :: _) => true
  | _ => false
  end.

(** Exceptions of the builtins that no handler catches. *)
Inductive BuiltinError :=
| AttributeError (attr : string).

(** [int < float] and [float < int], which Python decides on the exact
    values, with no rounding of the integer. *)
Definition int_ltb_float (z : Z) (f : float) : bool :=
  match FloatOps.Prim2SF f with
  | SpecFloat.S754_zero _ => z <? 0
  | SpecFloat.S754_infinity neg => negb neg
  | SpecFloat.S754_nan => false
  | SpecFloat.S754_finite neg m e =>
      let v := if neg then Z.neg m else Z.pos m in
      if 0 <=? e then z <? v * 2 ^ e else z * 2 ^ (- e) <? v
  end.

Definition float_ltb_int (f : float) (z : Z) : bool :=
  match FloatOps.Prim2SF f with
  | SpecFloat.S754_zero _ => 0 <? z
  | SpecFloat.S754_infinity neg => neg
  | SpecFloat.S754_nan => false
  | SpecFloat.S754_finite neg m e =>
      let v := if neg then Z.neg m else Z.pos m in
      if 0 <=? e then v * 2 ^ e <? z else v <? z * 2 ^ (- e)
  end.

(** [a < b] where [b] is a number: a [bool] compares as the integer it
    is, and anything that is not a number raises [TypeError]. *)
Definition json_lt (a b : Json) : Result bool :=
  let as_int (v : Json) : option Z :=
    match v with
    | JInt z => Some z
    | JBool b => Some (if b then 1 else 0)
    | _ => None
    end in
  match as_int a, a, as_int b, b with
  | Some x, _, Some y, _ => Ok (x <? y)
  | Some x, _, None, JFloat g => Ok (int_ltb_float x g)
  | None, JFloat f, Some y, _ => Ok (float_ltb_int f y)
  | None, JFloat f, None, JFloat g => Ok (PrimFloat.ltb f g)
  | _, _, _, _ => Raise TypeError
  end.

(** [k in q] on strings: [k] occurs in [q] as a run of consecutive
    characters. *)
Fixpoint contains (k q : str) : bool :=
  bool_decide (k `prefix_of` q)
  || match q with
     | [] => false
     | _ :: q' => contains k q'
     end.

Module Scheme.
Record t := mk {
  name : str;
  description : str;
  state : option str;
  crop_types : option (list str);
  benefit : option str;
  link : option str
}.
End Scheme.

#[global] Instance Scheme_model : BaseModel Scheme.t := fun s =>
  <["name" := VStr (Scheme.name s)]>
  (<["description" := VStr (Scheme.description s)]>
  (<["state" := of_opt (Scheme.state s)]>
  (<["crop_types" := match Scheme.crop_types s with
                     | Some l => VList l
                     | None => VNull
                     end]>
  (<["benefit" := of_opt (Scheme.benefit s)]>
  (<["link" := of_opt (Scheme.link s)]> ∅))))).

Definition SCHEMES : list Scheme.t :=
  [ Scheme.mk (py "PM-KISAN Income Support")
              (py "Direct income support to farmer families.")
              None None
              (Some (py "Rs. 6,000/year"))
              (Some (py "https://pmkisan.gov.in"));
    Scheme.mk (py "Soil Health Card Scheme")
              (py "Free soil testing and recommendations.")
              None None
              (Some (py "Free soil testing"))
              (Some (py "https://soilhealth.dac.gov.in"));
    Scheme.mk (py "Interest Subvention for Short Term Crop Loans")
              (py "Subsidized interest for crop loans.")
              None None
              (Some (py "Up to 3% subsidy"))
              (Some (py "https://www.nabard.org"));
    Scheme.mk (py "State Micro Irrigation Subsidy")
              (py "Drip/sprinkler irrigation subsidy.")
              (Some (py "Tamil Nadu"))
              (Some [py "Paddy"; py "Sugarcane"; py "Vegetables"])
              (Some (py "Up to 55% subsidy"))
              (Some (py "https://tnhorticulture.tn.gov.in")) ].

Module SchemeQuery.
Record t := mk {
  state : option str;
  crop : option str
}.
End SchemeQuery.

(** The answer of [soil_analysis]. *)
Module SoilReport.
Record t := mk {
  status : string;
  advice : list string
}.
End SoilReport.

(** [str.lower] on a string of ASCII characters, for the examples. *)
Definition ascii_lower (s : str) : str :=
  map (fun c => if (65 <=? c)%N && (c <=? 90)%N then (c + 32)%N else c) s.

Section Advisory.

(** [str.lower] and [datetime.isoformat] are taken as they come. *)
Variable lower : str -> str.
Variable isoformat : datetime -> str.

(** The loop of [find_schemes]: [res] collects the schemes kept so
    far. *)
Fixpoint find_schemes_loop (query : SchemeQuery.t) (schemes : list Scheme.t)
    (res : list Scheme.t) : list Scheme.t :=
  match schemes with
  | [] => res
  | s :: rest =>
      if truthy_opt (SchemeQuery.state query) && truthy_opt (Scheme.state s)
         && negb (bool_decide
                    (lower (default [] (Scheme.state s))
                     = lower (default [] (SchemeQuery.state query))))
      then find_schemes_loop query rest res
      else if truthy_opt (SchemeQuery.crop query)
              && truthy_opt (Scheme.crop_types s)
              && negb (bool_decide
                         (default [] (SchemeQuery.crop query)
                          ∈ default [] (Scheme.crop_types s)))
      then find_schemes_loop query rest res
      else find_schemes_loop query rest (res ++ [s])
  end.

Definition find_schemes (query : SchemeQuery.t) : list doc :=
  let res := find_schemes_loop query SCHEMES [] in
  map model_dump res.

(** The rows of [market_updates]. *)
Definition market_base : list (gmap string Json) :=
  [ <["crop" := JStr (py "Paddy")]> (<["min" := JInt 1500]>
      (<["max" := JInt 2100]> (<["unit" := JStr (py "Rs/quintal")]> ∅)));
    <["crop" := JStr (py "Wheat")]> (<["min" := JInt 1700]>
      (<["max" := JInt 2200]> (<["unit" := JStr (py "Rs/quintal")]> ∅)));
    <["crop" := JStr (py "Tomato")]> (<["min" := JInt 10]>
      (<["max" := JInt 30]> (<["unit" := JStr (py "Rs/kg")]> ∅))) ].

(** [r["crop"].lower() == crop.lower()] on a row whose crop is a
    string. *)
Definition crop_is (crop : str) (r : gmap string Json) : bool :=
  match r !! "crop" with
  | Some (JStr c) => bool_decide (lower c = lower crop)
  | _ => false
  end.

(** The second loop of [market_updates]: every row is stamped in turn,
    each with its own reading of the clock. *)
Fixpoint stamp_rows (state : option str) (data : list (gmap string Json))
    : M (list (gmap string Json)) :=
  match data with
  | [] => ret []
  | r :: rest =>
      t <- now_utc ;;
      let r' := <["last_updated" := JStr (isoformat t)]>
                  (<["state" := JStr (if truthy_opt state
                                      then default [] state else [])]> r) in
      rest' <- stamp_rows state rest ;;
      ret (r' :: rest')
  end.

Definition market_updates (crop state : option str)
    : M (list (gmap string Json)) :=
  let base := market_base in
  let data :=
    filter (fun r => (negb (truthy_opt crop)
                      || crop_is (default [] crop) r) = true) base in
  stamp_rows state data.

(** [soil_analysis]. *)
#[warnings="-inexact-float"]
Definition soil_analysis (params : body) : Result SoilReport.t :=
  let ph := body_get params "ph" (JFloat 6.8) in
  let moisture := body_get params "moisture" (JInt 45) in
  let organic := body_get params "organic" (JFloat 1.2) in
  let advice := [] in
  match json_lt ph (JFloat 6.5) with
  | Raise e => Raise e
  | Ok low_ph =>
      let advice :=
        if low_ph then advice ++ ["Apply lime to raise pH"] else advice in
      match json_lt organic (JFloat 1.5) with
      | Raise e => Raise e
      | Ok low_organic =>
          let advice :=
            if low_organic
            then advice ++ ["Incorporate farmyard manure/compost"]
            else advice in
          match json_lt moisture (JInt 40) with
          | Raise e => Raise e
          | Ok dry =>
              let advice :=
                if dry
                then advice ++ ["Schedule drip irrigation every 3 days"]
                else advice in
              Ok (SoilReport.mk "Moderate"
                    (match advice with
                     | [] => ["Maintain current practices"]
                     | _ => advice
                     end))
          end
      end
  end.

(** The FAQ table of [chat], in the order it is written. *)
Definition faqs : list (str * string) :=
  [ (py "loan",
     "You can apply for subsidized crop loans at your nearest bank under the Interest Subvention scheme.");
    (py "soil",
     "Use the Soil Health Card scheme to test your soil for free.");
    (py "irrigation",
     "Micro-irrigation (drip/sprinkler) saves up to 40% water.") ].

Definition fallback_reply : string :=
  "Thanks for your message. Our advisory team will get back. Meanwhile, check Dashboard and Calendar for guidance.".

(** The loop of [chat] over the table. *)
Fixpoint first_faq (q : str) (table : list (str * string)) : string :=
  match table with
  | [] => fallback_reply
  | (k, v) :: rest => if contains k q then v else first_faq q rest
  end.

(** [chat].  [message.get("text") or ""] is the text when it is true
    and the empty string otherwise; only a string has [lower]. *)
Definition chat (message : body) : BuiltinError + string :=
  let text := body_get message "text" JNull in
  let text_or_empty := if json_truthy text then text else JStr [] in
  match text_or_empty with
  | JStr s => inr (first_faq (lower s) faqs)
  | _ => inl (AttributeError "lower")
  end.

End Advisory.

(** ** Parts of the advisory endpoints, named for the proofs *)

(** A scheme passes the two tests of [find_schemes]. *)
Definition scheme_passes (lower : str -> str) (query : SchemeQuery.t)
    (s : Scheme.t) : bool :=
  negb (truthy_opt (SchemeQuery.state query) && truthy_opt (Scheme.state s)
        && negb (bool_decide
                   (lower (default [] (Scheme.state s))
                    = lower (default [] (SchemeQuery.state query)))))
  && negb (truthy_opt (SchemeQuery.crop query)
           && truthy_opt (Scheme.crop_types s)
           && negb (bool_decide
                      (default [] (SchemeQuery.crop query)
                       ∈ default [] (Scheme.crop_types s)))).

(** [k] occurs in [q]: some characters, then [k], then the rest. *)
Definition occurs (k q : str) : Prop := exists a b, q = a ++ k ++ b.

(** A parsed value that is a number for [<]. *)
Definition is_number (v : Json) : bool :=
  match v with
  | JInt _ | JFloat _ | JBool _ => true
  | _ => false
  end.

(** The three replies and the three pieces of advice. *)
Definition loan_reply : string :=
  "You can apply for subsidized crop loans at your nearest bank under the Interest Subvention scheme.".
Definition soil_reply : string :=
  "Use the Soil Health Card scheme to test your soil for free.".
Definition irrigation_reply : string :=
  "Micro-irrigation (drip/sprinkler) saves up to 40% water.".

Definition lime_advice : string := "Apply lime to raise pH".
Definition manure_advice : string := "Incorporate farmyard manure/compost".
Definition drip_advice : string := "Schedule drip irrigation every 3 days".

(** * Properties *)

(** ** The store *)

(** A run is determined by its answer and the world it leaves. *)
Lemma run_pair {A} (c : M A) (w : World) (r : Result A) :
  fst (c w) = r -> c w = (r, snd (c w)).
Proof. destruct (c w); simpl; by intros ->. Qed.

Lemma documents_tick (n : string) (w : World) :
  documents n (tick w) = documents n w.
Proof. reflexivity. Qed.

Lemma documents_written (n : string) (l : list doc) (d : Database) (w : World) :
  documents n (set_db (Some (<[n := l]> d)) w) = l.
Proof. unfold documents; simpl. by rewrite lookup_insert_eq. Qed.

Lemma documents_other (n m : string) (l : list doc) (d : Database) (w : World) :
  n ≠ m -> db w = Some d ->
  documents m (set_db (Some (<[n := l]> d)) w) = documents m w.
Proof.
  intros Hne Hdb. unfold documents; simpl.
  by rewrite lookup_insert_ne, Hdb.
Qed.

Lemma find_first_matches (f : string) (v : str) (l : list doc) (d : doc) :
  find_first f v l = Some d -> matches f v d = true.
Proof.
  unfold find_first. intros H.
  apply head_Some_elem_of in H. by apply list_elem_of_filter in H as [? _].
Qed.

Lemma find_first_elem (f : string) (v : str) (l : list doc) (d : doc) :
  find_first f v l = Some d -> d ∈ l.
Proof.
  unfold find_first. intros H.
  apply head_Some_elem_of in H. by apply list_elem_of_filter in H as [_ ?].
Qed.

Lemma find_first_cons (f : string) (v : str) (x : doc) (l : list doc) :
  find_first f v (x :: l) =
  if matches f v x then Some x else find_first f v l.
Proof.
  unfold find_first. rewrite filter_cons.
  destruct (matches f v x); case_decide; simpl; congruence.
Qed.

Lemma find_first_None (f : string) (v : str) (l : list doc) :
  find_first f v l = None <-> (forall d, d ∈ l -> matches f v d = false).
Proof.
  induction l as [|x l IH]; [split; [intros _ d Hd; inversion Hd | done]|].
  rewrite find_first_cons. destruct (matches f v x) eqn:Hx.
  - split; [done|]. intros H. specialize (H x (list_elem_of_here _ _)). congruence.
  - rewrite IH. split.
    + intros H d Hd. apply elem_of_cons in Hd as [->|Hd]; auto.
    + intros H d Hd. apply H. by apply list_elem_of_further.
Qed.

Lemma find_first_app_new (f : string) (v : str) (l : list doc) (x : doc) :
  find_first f v l = None -> matches f v x = true ->
  find_first f v (l ++ [x]) = Some x.
Proof.
  intros Hl Hx. induction l as [|y l IH]; simpl.
  - by rewrite find_first_cons, Hx.
  - rewrite find_first_cons in Hl |- *.
    destruct (matches f v y); [done | by apply IH].
Qed.

Lemma find_first_set_first (f : string) (v : str) (upd : doc)
    (l : list doc) (d : doc) :
  find_first f v l = Some d -> upd !! f = None ->
  find_first f v (set_first f v upd l) = Some (upd ∪ d).
Proof.
  intros Hl Hupd. induction l as [|y l IH]; [done|].
  rewrite find_first_cons in Hl. simpl.
  destruct (matches f v y) eqn:Hy.
  - injection Hl as <-. rewrite find_first_cons.
    replace (matches f v (upd ∪ y)) with true; [done|].
    unfold matches in *. by rewrite lookup_union_r.
  - rewrite find_first_cons, Hy. by apply IH.
Qed.

Lemma first_max_app_newest (f : string) (l : list doc) (x : doc) :
  (forall d, d ∈ l -> key_ltb (sort_key f d) (sort_key f x) = true) ->
  first_max f (l ++ [x]) = Some x.
Proof.
  induction l as [|y l IH]; intros H; [done|].
  simpl. rewrite IH.
  - by rewrite (H y (list_elem_of_here _ _)).
  - intros d Hd. apply H. by apply list_elem_of_further.
Qed.

Lemma first_max_elem (f : string) (l : list doc) (d : doc) :
  first_max f l = Some d -> d ∈ l.
Proof.
  revert d. induction l as [|y l IH]; intros d; [done|]. simpl.
  destruct (first_max f l) as [d'|].
  - destruct (key_ltb _ _); intros [= <-].
    + apply list_elem_of_further. by apply IH.
    + apply list_elem_of_here.
  - intros [= <-]. apply list_elem_of_here.
Qed.

Lemma first_max_None (f : string) (l : list doc) :
  first_max f l = None -> l = [].
Proof.
  destruct l as [|y l]; [done|]. simpl.
  destruct (first_max f l); [destruct (key_ltb _ _)|]; done.
Qed.

Lemma find_latest_newest (f : string) (v : str) (by_ : string)
    (l : list doc) (x : doc) :
  matches f v x = true ->
  (forall d, d ∈ l -> matches f v d = true ->
             key_ltb (sort_key by_ d) (sort_key by_ x) = true) ->
  find_latest f v by_ (l ++ [x]) = Some x.
Proof.
  intros Hx Hl. unfold find_latest.
  rewrite filter_app, filter_cons, filter_nil.
  case_decide; [|done].
  apply first_max_app_newest.
  intros d Hd. apply list_elem_of_filter in Hd as [? ?]. by apply Hl.
Qed.

Lemma find_latest_matches (f : string) (v : str) (by_ : string)
    (l : list doc) (d : doc) :
  find_latest f v by_ l = Some d -> matches f v d = true /\ d ∈ l.
Proof.
  unfold find_latest. intros H.
  apply first_max_elem in H. by apply list_elem_of_filter in H.
Qed.

Lemma find_latest_None (f : string) (v : str) (by_ : string) (l : list doc) :
  find_latest f v by_ l = None <-> (forall d, d ∈ l -> matches f v d = false).
Proof.
  unfold find_latest. split.
  - intros H d Hd. apply first_max_None in H.
    destruct (matches f v d) eqn:Hm; [|done].
    assert (d ∈ filter (fun d => matches f v d = true) l) as Hin
      by (by apply list_elem_of_filter).
    rewrite H in Hin. inversion Hin.
  - intros H.
    replace (filter (fun d => matches f v d = true) l) with (@nil doc); [done|].
    symmetry. induction l as [|y l IH]; [done|].
    rewrite filter_cons. case_decide as Hy.
    + rewrite (H y (list_elem_of_here _ _)) in Hy. done.
    + apply IH. intros d Hd. apply H. by apply list_elem_of_further.
Qed.

(** ** The expiry test *)

Lemma expiry_check_absent (d : doc) (w : World) :
  d !! "expires_at" = None \/ d !! "expires_at" = Some VNull ->
  expiry_check d w = (Ok false, w).
Proof.
  unfold expiry_check, dict_get. by intros [-> | ->].
Qed.

Lemma expiry_check_time (d : doc) (E : datetime) (w : World) :
  d !! "expires_at" = Some (VTime E) ->
  expiry_check d w = (Ok (E <? now w), tick w).
Proof.
  intros H. unfold expiry_check, dict_get, getitem, bind. by rewrite H.
Qed.

(** The test never writes to the store, whatever it finds. *)
Lemma expiry_check_db (d : doc) (w w' : World) (r : Result bool) :
  expiry_check d w = (r, w') -> db w' = db w.
Proof.
  unfold expiry_check, dict_get, getitem, bind, now_utc, lt_datetime, ret, raise.
  destruct (d !! "expires_at") as [[| b | s | t | l]|]; simpl;
    repeat (case_bool_decide; simpl); try destruct b; simpl;
    intros [= <- <-]; reflexivity.
Qed.

(** ** The handlers, step by step *)

Lemma require_session_run (w : World) (d : Database) (token : str) :
  db w = Some d ->
  require_session token w =
  match find_first "token" token (documents "session" w) with
  | None => (Raise Unauthenticated, w)
  | Some s =>
      match expiry_check s w with
      | (Ok true, w') => (Raise SessionExpired, w')
      | (Ok false, w') =>
          match s !! "farmer_id" with
          | Some v => (Ok v, w')
          | None => (Raise (KeyError "farmer_id"), w')
          end
      | (Raise e, w') => (Raise e, w')
      end
  end.
Proof.
  intros Hdb. unfold require_session, expiry_check, find_one.
  unfold bind at 1 2. unfold get_collection.
  rewrite Hdb. destruct (find_first _ _ _) as [s|]; [|done].
  unfold bind at 1.
  match goal with
  | |- (let (_, _) := ?c in _) = _ => destruct c as [[[]|e] w']
  end; try done.
  unfold getitem. by destruct (s !! "farmer_id").
Qed.

Lemma verify_otp_run (w : World) (d : Database) (payload : OTPVerifyRequest.t) :
  db w = Some d ->
  verify_otp payload w =
  match find_latest "phone" (OTPVerifyRequest.phone payload) "created_at"
                    (documents "otprequest" w) with
  | None => (Raise InvalidCredential, w)
  | Some latest =>
      if bool_decide (dict_get latest "otp" = VStr (OTPVerifyRequest.otp payload))
      then match expiry_check latest w with
           | (Ok true, w') => (Raise CredentialExpired, w')
           | (Ok false, w') => complete_verification payload w'
           | (Raise e, w') => (Raise e, w')
           end
      else (Raise InvalidCredential, w)
  end.
Proof.
  intros Hdb. unfold verify_otp, expiry_check, find_one_sorted.
  unfold bind at 1 2. unfold get_collection.
  rewrite Hdb. destruct (find_latest _ _ _ _) as [latest|]; [|done].
  case_bool_decide; [|done]. simpl.
  unfold bind at 1.
  match goal with
  | |- (let (_, _) := ?c in _) = _ => destruct c as [[[]|e] w']
  end; done.
Qed.

Lemma handlers_need_db (w : World) :
  db w = None ->
  (forall p, verify_otp p w = (Raise StorageUnavailable, w)) /\
  (forall t, require_session t w = (Raise StorageUnavailable, w)).
Proof.
  intros Hdb. split; intros x.
  - unfold verify_otp. unfold bind at 1. unfold get_collection. by rewrite Hdb.
  - unfold require_session. unfold bind at 1. unfold get_collection. by rewrite Hdb.
Qed.

Lemma complete_verification_ok (payload : OTPVerifyRequest.t) (w : World)
    (d : Database) :
  db w = Some d ->
  exists w' t1 t2 t3,
    complete_verification payload w =
      (Ok (TokenResponse.mk (tokens w (minted w)) (canonical_id payload) 604800), w') /\
    is_Some (db w') /\
    documents "farmer" w' = upserted payload (now w) (documents "farmer" w) /\
    documents "session" w' =
      documents "session" w ++
      [<["created_at" := VTime t3]>
         (model_dump (Session.mk (canonical_id payload) (tokens w (minted w))
                                 t1 (t2 + timedelta_days 7)))] /\
    documents "otprequest" w' = documents "otprequest" w.
Proof.
  intros Hdb.
  unfold complete_verification, upserted, bind, get_collection, find_one.
  rewrite Hdb.
  destruct (find_first "farmer_id" (canonical_id payload) (documents "farmer" w))
    as [d0|] eqn:Hf.
  - unfold now_utc, update_one, token_urlsafe, create_document, ret.
    simpl. rewrite Hdb. simpl.
    do 4 eexists. split; [reflexivity|]. split; [by eexists|].
    unfold documents. simpl. rewrite Hdb.
    repeat split.
    + by rewrite lookup_insert_ne, lookup_insert_eq.
    + rewrite lookup_insert_eq. simpl. by rewrite lookup_insert_ne.
    + by rewrite !lookup_insert_ne.
  - unfold now_utc, token_urlsafe, create_document, ret.
    simpl. rewrite Hdb. simpl.
    do 4 eexists. split; [reflexivity|]. split; [by eexists|].
    unfold documents. simpl. rewrite Hdb.
    repeat split.
    + by rewrite lookup_insert_ne, lookup_insert_eq.
    + rewrite lookup_insert_eq. simpl. by rewrite lookup_insert_ne.
    + by rewrite !lookup_insert_ne.
Qed.

(** After the upsert the profile found under the canonical identifier
    carries the five fields of the request. *)
Lemma upserted_profile (payload : OTPVerifyRequest.t) (t : datetime)
    (l : list doc) :
  exists p,
    find_first "farmer_id" (canonical_id payload) (upserted payload t l) = Some p /\
    (forall d0, find_first "farmer_id" (canonical_id payload) l = Some d0 ->
                p = profile_update payload t ∪ d0) /\
    p !! "phone" = Some (VStr (OTPVerifyRequest.phone payload)) /\
    p !! "aadhaar" = Some (of_opt (OTPVerifyRequest.aadhaar payload)) /\
    p !! "language" = Some (of_opt (OTPVerifyRequest.language payload)) /\
    p !! "name" = Some (of_opt (OTPVerifyRequest.name payload)) /\
    p !! "location" = Some (of_opt (OTPVerifyRequest.location payload)).
Proof.
  unfold upserted.
  destruct (find_first "farmer_id" (canonical_id payload) l) as [d0|] eqn:Hf.
  - exists (profile_update payload t ∪ d0).
    split; [by apply find_first_set_first|].
    split; [by intros ? [= <-]|].
    repeat split; by apply lookup_union_Some_l.
  - eexists. split.
    + apply find_first_app_new; [done|].
      unfold matches.
      change ((<["created_at" := VTime t]> (model_dump (new_profile payload)))
                !! "farmer_id")
        with (Some (VStr (canonical_id payload))).
      by apply bool_decide_eq_true.
    + split; [done|]. repeat split; reflexivity.
Qed.

Lemma request_otp_run (req : OTPStartRequest.t) (w : World) (d : Database) :
  db w = Some d ->
  request_otp req w =
    (Ok (OTPSent.mk "OTP sent" (mask_phone (OTPStartRequest.phone req))
                    (issued_code w)),
     set_db (Some (<["otprequest" :=
                      documents "otprequest" w ++ [issued_challenge req w]]> d))
            (tick (tick (drawn w)))).
Proof.
  intros Hdb.
  unfold request_otp, bind, randbelow, now_utc, create_document, ret.
  simpl. by rewrite Hdb.
Qed.

Lemma documents_db (n : string) (w w' : World) :
  db w' = db w -> documents n w' = documents n w.
Proof. unfold documents. by intros ->. Qed.

(** Once the code is accepted and the expiry test passes, the
    verification completes. *)
Lemma verify_otp_accepts (w w0 : World) (d : Database)
    (payload : OTPVerifyRequest.t) (latest : doc) :
  db w = Some d ->
  find_latest "phone" (OTPVerifyRequest.phone payload) "created_at"
              (documents "otprequest" w) = Some latest ->
  dict_get latest "otp" = VStr (OTPVerifyRequest.otp payload) ->
  expiry_check latest w = (Ok false, w0) ->
  exists r w', verify_otp payload w = (Ok r, w') /\ completed payload w w' r.
Proof.
  intros Hdb Hl Hotp Hexp.
  rewrite (verify_otp_run w d payload Hdb), Hl, Hotp.
  rewrite bool_decide_eq_true_2 by done. rewrite Hexp.
  pose proof (expiry_check_db _ _ _ _ Hexp) as Hdb0.
  assert (db w0 = Some d) as Hdb0' by congruence.
  destruct (complete_verification_ok payload w0 d Hdb0')
    as (w' & t1 & t2 & t3 & Hrun & Hsome & Hf & Hs & Ho).
  exists (TokenResponse.mk (tokens w0 (minted w0)) (canonical_id payload) 604800), w'.
  split; [done|].
  exists (now w0), t1, t2, t3, (tokens w0 (minted w0)).
  rewrite <- !(documents_db _ w w0 Hdb0). by repeat split.
Qed.

(** Every run of [verify_otp] either raises with the database
    untouched, or completes. *)
Lemma verify_otp_outcome (w w' : World) (payload : OTPVerifyRequest.t)
    (res : Result TokenResponse.t) :
  verify_otp payload w = (res, w') ->
  match res with
  | Raise e => db w' = db w
  | Ok r => completed payload w w' r
  end.
Proof.
  destruct (db w) as [d|] eqn:Hdb.
  - rewrite (verify_otp_run w d payload Hdb).
    destruct (find_latest _ _ _ _) as [latest|] eqn:Hl; [|by intros [= <- <-]].
    case_bool_decide as Hotp; [|by intros [= <- <-]].
    destruct (expiry_check latest w) as [[[]|e] w0] eqn:Hexp.
    + intros [= <- <-]. apply expiry_check_db in Hexp. congruence.
    + destruct (verify_otp_accepts w w0 d payload latest Hdb Hl Hotp Hexp)
        as (r & w'' & Hrun & Hdone).
      rewrite (verify_otp_run w d payload Hdb), Hl in Hrun.
      rewrite bool_decide_eq_true_2, Hexp in Hrun by done.
      rewrite Hrun. by intros [= <- <-].
    + intros [= <- <-]. apply expiry_check_db in Hexp. congruence.
  - rewrite (proj1 (handlers_need_db w Hdb)). by intros [= <- <-].
Qed.

Lemma completed_session (payload : OTPVerifyRequest.t) (w w' : World)
    (r : TokenResponse.t) :
  completed payload w w' r ->
  exists sess,
    documents "session" w' = documents "session" w ++ [sess] /\
    sess !! "token" = Some (VStr (TokenResponse.token r)) /\
    sess !! "farmer_id" = Some (VStr (TokenResponse.farmer_id r)) /\
    TokenResponse.farmer_id r = canonical_id payload.
Proof.
  intros (t & t1 & t2 & t3 & tok & -> & _ & _ & Hs & _).
  eexists. split; [exact Hs|]. by repeat split.
Qed.

(** ** Access to the collaborators *)

(** [disease_detect] answers in every world, for every token, and leaves
    the world as it found it: no session is looked up. *)
Lemma disease_detect_total (file : list byte) (crop token : option str)
    (w : World) :
  exists r, disease_detect file crop token w = (Ok r, w).
Proof.
  unfold disease_detect.
  destruct (_ <? 10000); [by eexists|].
  destruct (60 <? _); [by eexists|].
  destruct (30 <? _); by eexists.
Qed.

(** C1: a request to disease-detect whose token resolves to no session
    should fail.  Evaluated on an empty session store: the Session
    Validator rejects the token with [Unauthenticated], and
    [disease_detect] called with that same token returns a diagnosis. *)
Theorem disease_detect_serves_unknown_token :
  require_session (py "not-a-session") (world_at 1000 (store [] [] [])) =
    (Raise Unauthenticated, world_at 1000 (store [] [] [])) /\
  disease_detect [] (Some (py "Paddy")) (Some (py "not-a-session"))
                 (world_at 1000 (store [] [] [])) =
    (Ok (Diagnosis.mk (Some (py "Paddy"))
           "Low confidence: image too small. Possible nutrient deficiency."
           "Apply balanced micronutrient spray; retake a clearer photo."),
     world_at 1000 (store [] [] [])).
Proof. split; reflexivity. Qed.

(** ** The Session Validator *)

(** C4 (as amended): for a session with expiry E, validating its token
    at a time up to and including E returns the bound farmer
    identifier, and validating at a time strictly after E fails with
    [SessionExpired]. *)
Theorem session_validity_window (w : World) (d : Database) (token : str)
    (s : doc) (E : datetime) (fid : Value) :
  db w = Some d ->
  find_first "token" token (documents "session" w) = Some s ->
  s !! "expires_at" = Some (VTime E) ->
  s !! "farmer_id" = Some fid ->
  (now w <= E -> require_session token w = (Ok fid, tick w)) /\
  (E < now w -> require_session token w = (Raise SessionExpired, tick w)).
Proof.
  intros Hdb Hs HE Hfid.
  rewrite (require_session_run w d token Hdb), Hs.
  rewrite (expiry_check_time s E w HE), Hfid.
  split; intros Ht.
  - by replace (E <? now w) with false by (symmetry; apply Z.ltb_ge; lia).
  - by replace (E <? now w) with true by (symmetry; apply Z.ltb_lt; lia).
Qed.

Lemma session_validity_window_witness :
  require_session (py "3q2-7wAAq83vEjRWeJq83u8SNFZ4mrze")
    (world_at 1000 (store [] [] [session_ex (VTime 2000)])) =
  (Ok (VStr phone_ex),
   tick (world_at 1000 (store [] [] [session_ex (VTime 2000)]))).
Proof.
  apply (proj1 (session_validity_window
                  (world_at 1000 (store [] [] [session_ex (VTime 2000)]))
                  (store [] [] [session_ex (VTime 2000)])
                  (py "3q2-7wAAq83vEjRWeJq83u8SNFZ4mrze")
                  (session_ex (VTime 2000)) 2000 (VStr phone_ex)
                  eq_refl eq_refl eq_refl eq_refl)).
  unfold now; simpl; lia.
Defined.

(** C4 as stated fails at time = E: the session is still valid at the
    very instant of its expiry. *)
Lemma session_valid_at_expiry_instant :
  find_first "token" (py "3q2-7wAAq83vEjRWeJq83u8SNFZ4mrze")
    (documents "session" (world_at 1000 (store [] [] [session_ex (VTime 1000)])))
    = Some (session_ex (VTime 1000)) /\
  session_ex (VTime 1000) !! "expires_at" = Some (VTime 1000) /\
  now (world_at 1000 (store [] [] [session_ex (VTime 1000)])) >= 1000 /\
  fst (require_session (py "3q2-7wAAq83vEjRWeJq83u8SNFZ4mrze")
         (world_at 1000 (store [] [] [session_ex (VTime 1000)])))
    = Ok (VStr phone_ex) /\
  fst (require_session (py "3q2-7wAAq83vEjRWeJq83u8SNFZ4mrze")
         (world_at 1000 (store [] [] [session_ex (VTime 1000)])))
    <> Raise SessionExpired.
Proof.
  split; [reflexivity|]. split; [reflexivity|].
  split; [unfold now; simpl; lia|].
  split; [reflexivity | discriminate].
Qed.

(** ** The OTP Verifier *)

(** C3 (as amended): for a challenge with expiry E, verifying with the
    correct code at a time strictly after E fails with
    [CredentialExpired]; at every time up to and including E the
    challenge is still accepted and the verification completes. *)
Theorem challenge_validity_window (w : World) (d : Database)
    (payload : OTPVerifyRequest.t) (latest : doc) (E : datetime) :
  db w = Some d ->
  find_latest "phone" (OTPVerifyRequest.phone payload) "created_at"
              (documents "otprequest" w) = Some latest ->
  latest !! "otp" = Some (VStr (OTPVerifyRequest.otp payload)) ->
  latest !! "expires_at" = Some (VTime E) ->
  (E < now w -> verify_otp payload w = (Raise CredentialExpired, tick w)) /\
  (now w <= E ->
   exists r w', verify_otp payload w = (Ok r, w') /\ completed payload w w' r).
Proof.
  intros Hdb Hl Hotp HE. split; intros Ht.
  - rewrite (verify_otp_run w d payload Hdb), Hl.
    unfold dict_get. rewrite Hotp. simpl.
    rewrite bool_decide_eq_true_2 by done.
    rewrite (expiry_check_time latest E w HE).
    by replace (E <? now w) with true by (symmetry; apply Z.ltb_lt; lia).
  - apply (verify_otp_accepts w (tick w) d payload latest Hdb Hl).
    + unfold dict_get. by rewrite Hotp.
    + rewrite (expiry_check_time latest E w HE).
      by replace (E <? now w) with false by (symmetry; apply Z.ltb_ge; lia).
Qed.

Lemma challenge_validity_window_witness :
  verify_otp (verify_ex "483920")
    (world_at 1001 (store [challenge_ex (VTime 1000)] [] [])) =
  (Raise CredentialExpired,
   tick (world_at 1001 (store [challenge_ex (VTime 1000)] [] []))) /\
  exists r w',
    verify_otp (verify_ex "483920")
      (world_at 1000 (store [challenge_ex (VTime 1000)] [] [])) = (Ok r, w').
Proof.
  split.
  - apply (proj1 (challenge_validity_window
                    (world_at 1001 (store [challenge_ex (VTime 1000)] [] []))
                    (store [challenge_ex (VTime 1000)] [] [])
                    (verify_ex "483920") (challenge_ex (VTime 1000)) 1000
                    eq_refl eq_refl eq_refl eq_refl)).
    unfold now; simpl; lia.
  - destruct (proj2 (challenge_validity_window
                       (world_at 1000 (store [challenge_ex (VTime 1000)] [] []))
                       (store [challenge_ex (VTime 1000)] [] [])
                       (verify_ex "483920") (challenge_ex (VTime 1000)) 1000
                       eq_refl eq_refl eq_refl eq_refl))
      as (r & w' & Hrun & _).
    + unfold now; simpl; lia.
    + exists r, w'. exact Hrun.
Defined.

(** C3 as stated fails at time = E: with the correct code, verification
    at the very instant of expiry succeeds. *)
Lemma challenge_valid_at_expiry_instant :
  find_latest "phone" phone_ex "created_at"
    (documents "otprequest"
       (world_at 1000 (store [challenge_ex (VTime 1000)] [] [])))
    = Some (challenge_ex (VTime 1000)) /\
  challenge_ex (VTime 1000) !! "otp" = Some (VStr (py "483920")) /\
  challenge_ex (VTime 1000) !! "expires_at" = Some (VTime 1000) /\
  now (world_at 1000 (store [challenge_ex (VTime 1000)] [] [])) >= 1000 /\
  fst (verify_otp (verify_ex "483920")
         (world_at 1000 (store [challenge_ex (VTime 1000)] [] [])))
    = Ok (TokenResponse.mk (py "3q2-7wAAq83vEjRWeJq83u8SNFZ4mrze")
                           phone_ex 604800) /\
  fst (verify_otp (verify_ex "483920")
         (world_at 1000 (store [challenge_ex (VTime 1000)] [] [])))
    <> Raise CredentialExpired.
Proof.
  split; [reflexivity|]. split; [reflexivity|]. split; [reflexivity|].
  split; [unfold now; simpl; lia|].
  split; [vm_compute; reflexivity | vm_compute; discriminate].
Qed.

(** C5: a submitted code that differs from the stored code of the
    current challenge fails with [InvalidCredential] whatever the clock
    reads and whatever the expiry of the challenge, and so does a
    verification for a phone number that has no challenge. *)
Theorem wrong_code_is_invalid (w : World) (d : Database)
    (payload : OTPVerifyRequest.t) :
  db w = Some d ->
  (forall latest stored,
     find_latest "phone" (OTPVerifyRequest.phone payload) "created_at"
                 (documents "otprequest" w) = Some latest ->
     latest !! "otp" = Some (VStr stored) ->
     OTPVerifyRequest.otp payload <> stored ->
     verify_otp payload w = (Raise InvalidCredential, w)) /\
  ((forall c, c ∈ documents "otprequest" w ->
              matches "phone" (OTPVerifyRequest.phone payload) c = false) ->
   verify_otp payload w = (Raise InvalidCredential, w)).
Proof.
  intros Hdb. rewrite (verify_otp_run w d payload Hdb). split.
  - intros latest stored -> Hotp Hne.
    unfold dict_get. rewrite Hotp. simpl.
    rewrite bool_decide_eq_false_2; [done|]. intros [= ->]. done.
  - intros Hnone. apply find_latest_None with (by_ := "created_at") in Hnone.
    by rewrite Hnone.
Qed.

Lemma wrong_code_is_invalid_witness :
  verify_otp (verify_ex "000000")
    (world_at 5000 (store [challenge_ex (VTime 1000)] [] [])) =
  (Raise InvalidCredential,
   world_at 5000 (store [challenge_ex (VTime 1000)] [] [])) /\
  verify_otp (verify_ex "483920") (world_at 5000 (store [] [] [])) =
  (Raise InvalidCredential, world_at 5000 (store [] [] [])).
Proof.
  split.
  - apply (proj1 (wrong_code_is_invalid
                    (world_at 5000 (store [challenge_ex (VTime 1000)] [] []))
                    (store [challenge_ex (VTime 1000)] [] [])
                    (verify_ex "000000") eq_refl)
             (challenge_ex (VTime 1000)) (py "483920") eq_refl eq_refl).
    vm_compute. discriminate.
  - apply (proj2 (wrong_code_is_invalid
                    (world_at 5000 (store [] [] []))
                    (store [] [] []) (verify_ex "483920") eq_refl)).
    intros c Hc. vm_compute in Hc. inversion Hc.
Defined.

(** ** Issue, then verify *)

Lemma issued_challenge_fields (req : OTPStartRequest.t) (w : World) :
  matches "phone" (OTPStartRequest.phone req) (issued_challenge req w) = true /\
  issued_challenge req w !! "phone" = Some (VStr (OTPStartRequest.phone req)) /\
  issued_challenge req w !! "otp" = Some (VStr (issued_code w)) /\
  issued_challenge req w !! "expires_at"
    = Some (VTime (now w + timedelta_minutes 5)) /\
  sort_key "created_at" (issued_challenge req w) = Some (now (tick w)).
Proof.
  repeat split.
  unfold matches.
  change (issued_challenge req w !! "phone")
    with (Some (VStr (OTPStartRequest.phone req))).
  by apply bool_decide_eq_true.
Qed.

(** C2: issuing a challenge for P and verifying at once with the issued
    code succeeds, and the session returned and stored is bound to the
    canonical identifier: the farmer identifier supplied with the
    verification when it is non-empty, otherwise P.  The store is
    configured, the challenges already stored for P were stamped before
    the new one, and the verification reads the clock no later than
    five minutes after the issue did. *)
Theorem issue_then_verify (w : World) (d : Database)
    (req : OTPStartRequest.t) (fid aadhaar language name location : option str) :
  db w = Some d ->
  (forall c, c ∈ documents "otprequest" w ->
             matches "phone" (OTPStartRequest.phone req) c = true ->
             key_ltb (sort_key "created_at" c) (Some (now (tick w))) = true) ->
  now (tick (tick w)) <= now w + timedelta_minutes 5 ->
  exists sent w1 r w2 sess,
    request_otp req w = (Ok sent, w1) /\
    verify_otp (OTPVerifyRequest.mk (OTPStartRequest.phone req)
                                    (OTPSent.demo_otp sent)
                                    fid aadhaar language name location) w1
      = (Ok r, w2) /\
    TokenResponse.farmer_id r =
      match fid with
      | Some (c :: s) => c :: s
      | _ => OTPStartRequest.phone req
      end /\
    documents "session" w2 = documents "session" w ++ [sess] /\
    sess !! "token" = Some (VStr (TokenResponse.token r)) /\
    sess !! "farmer_id" = Some (VStr (TokenResponse.farmer_id r)).
Proof.
  intros Hdb Hold Hsoon.
  pose proof (request_otp_run req w d Hdb) as Hreq.
  set (w1 := set_db _ _) in Hreq.
  set (payload := OTPVerifyRequest.mk (OTPStartRequest.phone req) (issued_code w)
                    fid aadhaar language name location).
  destruct (issued_challenge_fields req w) as (Hm & _ & Hotp & HE & Hkey).
  assert (documents "otprequest" w1
          = documents "otprequest" w ++ [issued_challenge req w]) as Hdocs
    by apply documents_written.
  assert (find_latest "phone" (OTPVerifyRequest.phone payload) "created_at"
            (documents "otprequest" w1) = Some (issued_challenge req w)) as Hl.
  { rewrite Hdocs. apply find_latest_newest; [done|].
    intros c Hc Hmc. rewrite Hkey. by apply Hold. }
  assert (expiry_check (issued_challenge req w) w1 = (Ok false, tick w1)) as Hexp.
  { rewrite (expiry_check_time _ _ _ HE).
    replace (now w1) with (now (tick (tick w))) by reflexivity.
    by replace (_ <? _) with false by (symmetry; apply Z.ltb_ge; lia). }
  destruct (verify_otp_accepts w1 (tick w1) _ payload _ eq_refl Hl) as
    (r & w2 & Hrun & Hdone); [by unfold dict_get; rewrite Hotp | done |].
  destruct (completed_session _ _ _ _ Hdone) as (sess & Hs & Htok & Hfid & Hcan).
  exists (OTPSent.mk "OTP sent" (mask_phone (OTPStartRequest.phone req))
                     (issued_code w)), w1, r, w2, sess.
  split; [done|]. split; [done|]. split.
  - rewrite Hcan. unfold canonical_id, payload, str_or; simpl.
    destruct fid as [[|c s]|]; by try case_bool_decide.
  - split; [|done]. rewrite Hs. f_equal.
    unfold w1. by rewrite (documents_other "otprequest" "session").
Qed.

Lemma issue_then_verify_witness :
  exists sent w1 r w2 sess,
    request_otp (OTPStartRequest.mk phone_ex None)
                (world_at 1000 (store [] [] [])) = (Ok sent, w1) /\
    verify_otp (OTPVerifyRequest.mk phone_ex (OTPSent.demo_otp sent)
                  None None (Some (py "en")) None None) w1 = (Ok r, w2) /\
    TokenResponse.farmer_id r = phone_ex /\
    documents "session" w2 =
      documents "session" (world_at 1000 (store [] [] [])) ++ [sess] /\
    sess !! "token" = Some (VStr (TokenResponse.token r)) /\
    sess !! "farmer_id" = Some (VStr (TokenResponse.farmer_id r)).
Proof.
  apply (issue_then_verify (world_at 1000 (store [] [] [])) (store [] [] [])
           (OTPStartRequest.mk phone_ex None)
           None None (Some (py "en")) None None eq_refl).
  - intros c Hc. vm_compute in Hc. inversion Hc.
  - unfold now, timedelta_minutes; simpl; lia.
Defined.

(** C6: after two challenges are issued for the same phone number P,
    both are stored, the first still with its own code, and a
    verification with the code of the first is refused with
    [InvalidCredential]: only the challenge created last is consulted.
    The two codes drawn differ, the second challenge is stamped after
    the first, and after every challenge stored for P before. *)
Theorem superseded_code_is_refused (w w1 w2 : World) (d : Database)
    (P : str) (f1 f2 : option str) :
  db w = Some d ->
  w1 = snd (request_otp (OTPStartRequest.mk P f1) w) ->
  w2 = snd (request_otp (OTPStartRequest.mk P f2) w1) ->
  issued_code w <> issued_code w1 ->
  now (tick w) < now (tick w1) ->
  (forall c, c ∈ documents "otprequest" w -> matches "phone" P c = true ->
             key_ltb (sort_key "created_at" c) (Some (now (tick w1))) = true) ->
  fst (request_otp (OTPStartRequest.mk P f1) w)
    = Ok (OTPSent.mk "OTP sent" (mask_phone P) (issued_code w)) /\
  fst (request_otp (OTPStartRequest.mk P f2) w1)
    = Ok (OTPSent.mk "OTP sent" (mask_phone P) (issued_code w1)) /\
  (forall fid aadhaar language name location,
     verify_otp (OTPVerifyRequest.mk P (issued_code w)
                                     fid aadhaar language name location) w2
       = (Raise InvalidCredential, w2)) /\
  exists c1 c2,
    documents "otprequest" w2 = documents "otprequest" w ++ [c1; c2] /\
    c1 !! "phone" = Some (VStr P) /\
    c1 !! "otp" = Some (VStr (issued_code w)) /\
    c2 !! "phone" = Some (VStr P) /\
    c2 !! "otp" = Some (VStr (issued_code w1)).
Proof.
  intros Hdb Hw1 Hw2 Hne Hlater Hold.
  set (req1 := OTPStartRequest.mk P f1) in *.
  set (req2 := OTPStartRequest.mk P f2) in *.
  rewrite (request_otp_run req1 w d Hdb) in Hw1 |- *. simpl in Hw1.
  assert (documents "otprequest" w1
          = documents "otprequest" w ++ [issued_challenge req1 w]) as Hdocs1
    by (rewrite Hw1; apply documents_written).
  assert (exists d1, db w1 = Some d1) as [d1 Hdb1] by (rewrite Hw1; by eexists).
  rewrite (request_otp_run req2 w1 d1 Hdb1) in Hw2 |- *. simpl in Hw2.
  assert (documents "otprequest" w2
          = documents "otprequest" w
              ++ [issued_challenge req1 w; issued_challenge req2 w1]) as Hdocs2.
  { rewrite Hw2, documents_written, Hdocs1. by rewrite <- app_assoc. }
  destruct (issued_challenge_fields req1 w) as (_ & Hp1 & Hotp1 & _ & Hkey1).
  destruct (issued_challenge_fields req2 w1) as (Hm2 & Hp2 & Hotp2 & _ & Hkey2).
  split; [done|]. split; [done|]. split.
  - intros fid aadhaar language name location.
    assert (exists d2, db w2 = Some d2) as [d2 Hdb2] by (rewrite Hw2; by eexists).
    rewrite (verify_otp_run w2 d2 _ Hdb2). simpl.
    replace (documents "otprequest" w2)
      with ((documents "otprequest" w ++ [issued_challenge req1 w])
              ++ [issued_challenge req2 w1])
      by (by rewrite Hdocs2, <- app_assoc).
    rewrite find_latest_newest; [| done |].
    + unfold dict_get. rewrite Hotp2. simpl.
      rewrite bool_decide_eq_false_2; [done|]. intros [= Heq]. by apply Hne.
    + intros c Hc Hmc. rewrite Hkey2.
      apply elem_of_app in Hc as [Hc|Hc]; [by apply Hold|].
      apply list_elem_of_singleton in Hc as ->. rewrite Hkey1. simpl.
      by apply Z.ltb_lt.
  - by exists (issued_challenge req1 w), (issued_challenge req2 w1).
Qed.

Lemma superseded_code_is_refused_witness :
  verify_otp (verify_ex "483920")
    (snd (request_otp (OTPStartRequest.mk phone_ex None)
            (snd (request_otp (OTPStartRequest.mk phone_ex None)
                    (world_at 1000 (store [] [] [])))))) =
  (Raise InvalidCredential,
   snd (request_otp (OTPStartRequest.mk phone_ex None)
            (snd (request_otp (OTPStartRequest.mk phone_ex None)
                    (world_at 1000 (store [] [] [])))))).
Proof.
  refine (proj1 (proj2 (proj2
    (superseded_code_is_refused (world_at 1000 (store [] [] [])) _ _
       (store [] [] []) phone_ex None None eq_refl eq_refl eq_refl _ _ _)))
    None None (Some (py "en")) None None).
  - vm_compute. discriminate.
  - unfold now; simpl; lia.
  - intros c Hc. vm_compute in Hc. inversion Hc.
Defined.

(** ** All or nothing *)

(** C7: when [verify_otp] raises, whatever the exception, the database
    is exactly as before: no profile is created or updated and no
    session is created.  When it returns, the profile found under the
    canonical identifier carries the fields of the request and one
    session, bound to that identifier and holding the returned token,
    has been appended. *)
Theorem verification_all_or_nothing (w w' : World)
    (payload : OTPVerifyRequest.t) (res : Result TokenResponse.t) :
  verify_otp payload w = (res, w') ->
  (forall e, res = Raise e ->
     db w' = db w /\
     documents "farmer" w' = documents "farmer" w /\
     documents "session" w' = documents "session" w) /\
  (forall r, res = Ok r ->
     exists p sess,
       find_first "farmer_id" (canonical_id payload) (documents "farmer" w')
         = Some p /\
       p !! "phone" = Some (VStr (OTPVerifyRequest.phone payload)) /\
       p !! "aadhaar" = Some (of_opt (OTPVerifyRequest.aadhaar payload)) /\
       p !! "language" = Some (of_opt (OTPVerifyRequest.language payload)) /\
       p !! "name" = Some (of_opt (OTPVerifyRequest.name payload)) /\
       p !! "location" = Some (of_opt (OTPVerifyRequest.location payload)) /\
       documents "session" w' = documents "session" w ++ [sess] /\
       sess !! "token" = Some (VStr (TokenResponse.token r)) /\
       sess !! "farmer_id" = Some (VStr (canonical_id payload))) /\
  (documents "session" w' <> documents "session" w -> exists r, res = Ok r).
Proof.
  intros Hrun. pose proof (verify_otp_outcome w w' payload res Hrun) as Hout.
  split; [|split].
  - intros e ->. split; [done|]. split; by apply documents_db.
  - intros r ->.
    destruct (completed_session _ _ _ _ Hout) as (sess & Hs & Htok & Hfid & Hcan).
    destruct Hout as (t & _ & _ & _ & _ & _ & _ & Hf & _).
    destruct (upserted_profile payload t (documents "farmer" w))
      as (p & Hp & _ & H1 & H2 & H3 & H4 & H5).
    exists p, sess. rewrite Hf. rewrite Hcan in Hfid. by repeat split.
  - intros Hchanged. destruct res as [r|e]; [by exists r|].
    destruct Hchanged. by apply documents_db.
Qed.

Lemma verification_all_or_nothing_witness :
  db (snd (verify_otp (verify_ex "000000")
             (world_at 1000 (store [challenge_ex (VTime 5000)] [] []))))
  = Some (store [challenge_ex (VTime 5000)] [] []).
Proof.
  refine (proj1 (proj1
    (verification_all_or_nothing
       (world_at 1000 (store [challenge_ex (VTime 5000)] [] [])) _
       (verify_ex "000000") (Raise InvalidCredential) _)
    InvalidCredential eq_refl)).
  reflexivity.
Defined.

(** ** The identity upsert *)

(** C8: after two successful verifications for the same canonical
    farmer identifier, the profile is the one the first left with the
    five fields of the second written over it: phone, national ID,
    language, display name and location are those of the second
    request, null where the second request gave none, and no second
    profile is created. *)
Theorem upsert_is_full_overwrite (w w1 w2 : World)
    (v1 v2 : OTPVerifyRequest.t) (r1 r2 : TokenResponse.t) :
  verify_otp v1 w = (Ok r1, w1) ->
  verify_otp v2 w1 = (Ok r2, w2) ->
  canonical_id v1 = canonical_id v2 ->
  exists p1 p2 t,
    find_first "farmer_id" (canonical_id v2) (documents "farmer" w1) = Some p1 /\
    find_first "farmer_id" (canonical_id v2) (documents "farmer" w2) = Some p2 /\
    documents "farmer" w2 =
      set_first "farmer_id" (canonical_id v2) (profile_update v2 t)
                (documents "farmer" w1) /\
    p2 = profile_update v2 t ∪ p1 /\
    p2 !! "phone" = Some (VStr (OTPVerifyRequest.phone v2)) /\
    p2 !! "aadhaar" = Some (of_opt (OTPVerifyRequest.aadhaar v2)) /\
    p2 !! "language" = Some (of_opt (OTPVerifyRequest.language v2)) /\
    p2 !! "name" = Some (of_opt (OTPVerifyRequest.name v2)) /\
    p2 !! "location" = Some (of_opt (OTPVerifyRequest.location v2)).
Proof.
  intros Hrun1 Hrun2 Hsame.
  pose proof (verify_otp_outcome _ _ _ _ Hrun1)
    as (t1 & _ & _ & _ & _ & _ & _ & Hf1 & _).
  pose proof (verify_otp_outcome _ _ _ _ Hrun2)
    as (t2 & _ & _ & _ & _ & _ & _ & Hf2 & _).
  destruct (upserted_profile v1 t1 (documents "farmer" w)) as (p1 & Hp1 & _).
  rewrite <- Hf1, Hsame in Hp1.
  destruct (upserted_profile v2 t2 (documents "farmer" w1))
    as (p2 & Hp2 & Hover & Hfields).
  rewrite <- Hf2 in Hp2.
  exists p1, p2, t2. split; [done|]. split; [done|]. split.
  - rewrite Hf2. unfold upserted. by rewrite Hp1.
  - split; [by apply Hover | done].
Qed.


Lemma upsert_is_full_overwrite_witness :
  exists p2,
    find_first "farmer_id" phone_ex
      (documents "farmer"
         (snd (verify_otp (verify_ex "483920")
            (snd (verify_otp full_verify_ex
                    (world_at 1000 (store [challenge_ex (VTime 5000)] [] [])))))))
      = Some p2 /\
    p2 !! "aadhaar" = Some VNull /\
    p2 !! "language" = Some (VStr (py "en")) /\
    p2 !! "name" = Some VNull /\
    p2 !! "location" = Some VNull.
Proof.
  assert (verify_otp full_verify_ex
            (world_at 1000 (store [challenge_ex (VTime 5000)] [] []))
          = (Ok (TokenResponse.mk token_ex phone_ex 604800),
             snd (verify_otp full_verify_ex
                    (world_at 1000 (store [challenge_ex (VTime 5000)] [] [])))))
    as H1 by (apply run_pair; vm_compute; reflexivity).
  assert (verify_otp (verify_ex "483920")
            (snd (verify_otp full_verify_ex
                    (world_at 1000 (store [challenge_ex (VTime 5000)] [] []))))
          = (Ok (TokenResponse.mk token_ex phone_ex 604800),
             snd (verify_otp (verify_ex "483920")
                    (snd (verify_otp full_verify_ex
                       (world_at 1000 (store [challenge_ex (VTime 5000)] [] [])))))))
    as H2 by (apply run_pair; vm_compute; reflexivity).
  destruct (upsert_is_full_overwrite _ _ _ _ _ _ _ H1 H2 eq_refl)
    as (p1 & p2 & t & _ & Hp2 & _ & _ & _ & Ha & Hl & Hn & Hloc).
  exists p2. split; [exact Hp2|]. split; [exact Ha|].
  split; [exact Hl|]. split; [exact Hn | exact Hloc].
Defined.

(** ** The masked phone number *)

Lemma mask_phone_spec (phone : str) : mask_phone phone = mask_spec phone.
Proof.
  unfold mask_phone, mask_spec, replace, all_but_last4, last4.
  remember (length phone - 4)%nat as n eqn:Hn.
  rewrite <- (take_drop n phone) at 3.
  rewrite imap_app. f_equal.
  - rewrite <- list_fmap_compose.
    rewrite <- (imap_const _ (take n phone)).
    apply imap_ext. intros i c Hi. simpl.
    apply lookup_lt_Some in Hi. rewrite length_take in Hi.
    rewrite (bool_decide_eq_true_2 (i + 4 < length phone)%nat) by lia. simpl.
    repeat case_bool_decide; subst; done.
  - rewrite <- (list_fmap_id (drop n phone)) at 1.
    rewrite <- (imap_const id (drop n phone)).
    apply imap_ext. intros i c Hi. simpl.
    rewrite length_take.
    by rewrite (bool_decide_eq_false_2 (_ + i + 4 < length phone)%nat) by lia.
Qed.

Lemma mask_phone_length (phone : str) :
  length (mask_phone phone) = length phone.
Proof.
  unfold mask_phone, replace, all_but_last4, last4.
  rewrite length_app, !length_fmap, length_take, length_drop. lia.
Qed.

(** C9: the phone number [request_otp] returns has the length of the
    one received; its last four characters are those received; before
    them, "0" and "1" are replaced by "*" and every other character is
    kept. *)
Theorem masked_phone_keeps_last_four (req : OTPStartRequest.t) (w : World)
    (d : Database) :
  db w = Some d ->
  exists sent w1,
    request_otp req w = (Ok sent, w1) /\
    OTPSent.phone sent = mask_spec (OTPStartRequest.phone req) /\
    length (OTPSent.phone sent) = length (OTPStartRequest.phone req) /\
    last4 (OTPSent.phone sent) = last4 (OTPStartRequest.phone req) /\
    (forall (i : nat) (c : N),
       OTPStartRequest.phone req !! i = Some c ->
       OTPSent.phone sent !! i =
         Some (if bool_decide (i + 4 < length (OTPStartRequest.phone req))%nat
               then (if bool_decide (c = 48%N \/ c = 49%N) then 42%N else c)
               else c)).
Proof.
  intros Hdb. do 2 eexists. split; [by apply request_otp_run|]. simpl.
  set (P := OTPStartRequest.phone req).
  split; [apply mask_phone_spec|].
  split; [apply mask_phone_length|]. split.
  - unfold last4 at 1. rewrite mask_phone_length.
    unfold mask_phone. apply drop_app_length'.
    unfold replace, all_but_last4. rewrite !length_fmap, length_take. lia.
  - intros i c Hi. rewrite mask_phone_spec. unfold mask_spec.
    rewrite list_lookup_imap, Hi. simpl. f_equal.
    destruct (bool_decide (i + 4 < length P)%nat); simpl; [|done].
    destruct (decide (c = 48%N)) as [->|H0]; [done|].
    destruct (decide (c = 49%N)) as [->|H1]; [done|].
    rewrite !bool_decide_eq_false_2; [done | intros [?|?]; done | done | done].
Qed.

Lemma masked_phone_keeps_last_four_witness :
  exists sent w1,
    request_otp (OTPStartRequest.mk (py "9101234567") None)
                (world_at 1000 (store [] [] [])) = (Ok sent, w1) /\
    OTPSent.phone sent = py "9***234567".
Proof.
  destruct (masked_phone_keeps_last_four
              (OTPStartRequest.mk (py "9101234567") None)
              (world_at 1000 (store [] [] [])) (store [] [] []) eq_refl)
    as (sent & w1 & Hrun & Hmask & _).
  exists sent, w1. split; [exact Hrun|]. rewrite Hmask. reflexivity.
Defined.

(** ** Records without an expiry *)

(** C10: a session record whose [expires_at] is missing or null never
    yields [SessionExpired], whatever the clock reads, and its farmer
    identifier is returned; a challenge record whose [expires_at] is
    missing or null never yields [CredentialExpired], and with the
    right code the verification completes. *)
Theorem expiry_enforced_only_when_present (w : World) (d : Database) :
  db w = Some d ->
  (forall token s,
     find_first "token" token (documents "session" w) = Some s ->
     s !! "expires_at" = None \/ s !! "expires_at" = Some VNull ->
     fst (require_session token w) <> Raise SessionExpired /\
     (forall fid, s !! "farmer_id" = Some fid ->
                  require_session token w = (Ok fid, w))) /\
  (forall payload latest,
     find_latest "phone" (OTPVerifyRequest.phone payload) "created_at"
                 (documents "otprequest" w) = Some latest ->
     latest !! "expires_at" = None \/ latest !! "expires_at" = Some VNull ->
     fst (verify_otp payload w) <> Raise CredentialExpired /\
     (latest !! "otp" = Some (VStr (OTPVerifyRequest.otp payload)) ->
      exists r w', verify_otp payload w = (Ok r, w') /\
                   completed payload w w' r)).
Proof.
  intros Hdb. split.
  - intros token s Hs Habs.
    rewrite (require_session_run w d token Hdb), Hs.
    rewrite (expiry_check_absent s w Habs).
    split; [by destruct (s !! "farmer_id")|]. by intros fid ->.
  - intros payload latest Hl Habs.
    pose proof (expiry_check_absent latest w Habs) as Hexp. split.
    + rewrite (verify_otp_run w d payload Hdb), Hl.
      case_bool_decide as Hotp; [|done]. rewrite Hexp.
      destruct (verify_otp_accepts w w d payload latest Hdb Hl Hotp Hexp)
        as (r & w' & Hrun & _).
      rewrite (verify_otp_run w d payload Hdb), Hl in Hrun.
      rewrite bool_decide_eq_true_2, Hexp in Hrun by done.
      by rewrite Hrun.
    + intros Hotp. apply (verify_otp_accepts w w d payload latest); try done.
      unfold dict_get. by rewrite Hotp.
Qed.

Lemma expiry_enforced_only_when_present_witness :
  require_session token_ex
    (world_at 999999999999 (store [challenge_ex VNull] [] [session_ex VNull]))
  = (Ok (VStr phone_ex),
     world_at 999999999999 (store [challenge_ex VNull] [] [session_ex VNull])) /\
  fst (verify_otp (verify_ex "483920")
         (world_at 999999999999
            (store [challenge_ex VNull] [] [session_ex VNull])))
  <> Raise CredentialExpired.
Proof.
  destruct (expiry_enforced_only_when_present
              (world_at 999999999999
                 (store [challenge_ex VNull] [] [session_ex VNull]))
              (store [challenge_ex VNull] [] [session_ex VNull]) eq_refl)
    as [Hs Ho].
  split.
  - apply (proj2 (Hs token_ex (session_ex VNull) eq_refl (or_intror eq_refl))
             (VStr phone_ex) eq_refl).
  - apply (proj1 (Ho (verify_ex "483920") (challenge_ex VNull) eq_refl
                     (or_intror eq_refl))).
Defined.

(** * Further properties of the authentication core *)

Lemma complete_verification_trace (payload : OTPVerifyRequest.t) (w w' : World)
    (r : Result TokenResponse.t) :
  complete_verification payload w = (r, w') ->
  is_Some (db w) ->
  clock w' = clock w /\ ticks w' = (4 + ticks w)%nat /\
  documents "session" w' =
    documents "session" w ++ [issued_session payload (tokens w (minted w)) w'].
Proof.
  intros Hrun [d Hdb]. revert Hrun.
  unfold complete_verification, bind, get_collection, find_one.
  rewrite Hdb.
  destruct (find_first "farmer_id" (canonical_id payload) (documents "farmer" w))
    as [d0|].
  - unfold now_utc, update_one, token_urlsafe, create_document, ret.
    simpl. rewrite Hdb. simpl. intros [= <- <-]. simpl.
    split; [done|]. split; [done|].
    unfold documents, issued_session. simpl. rewrite Hdb.
    rewrite lookup_insert_eq. simpl. rewrite lookup_insert_ne by done.
    reflexivity.
  - unfold now_utc, token_urlsafe, create_document, ret.
    simpl. rewrite Hdb. simpl. intros [= <- <-]. simpl.
    split; [done|]. split; [done|].
    unfold documents, issued_session. simpl. rewrite Hdb.
    rewrite lookup_insert_eq. simpl. rewrite lookup_insert_ne by done.
    reflexivity.
Qed.

Lemma expiry_check_world (d : doc) (w w0 : World) (r : Result bool) :
  expiry_check d w = (r, w0) -> w0 = w \/ w0 = tick w.
Proof.
  unfold expiry_check, dict_get, getitem, bind, now_utc, lt_datetime, ret, raise.
  destruct (d !! "expires_at") as [[| b | s | t | l]|]; simpl;
    repeat (case_bool_decide; simpl); try destruct b; simpl;
    intros [= <- <-]; auto.
Qed.

Lemma verify_otp_session (w w1 : World) (payload : OTPVerifyRequest.t)
    (r : TokenResponse.t) :
  verify_otp payload w = (Ok r, w1) ->
  clock w1 = clock w /\ (4 + ticks w <= ticks w1)%nat /\
  TokenResponse.farmer_id r = canonical_id payload /\
  documents "session" w1 =
    documents "session" w ++ [issued_session payload (TokenResponse.token r) w1].
Proof.
  destruct (db w) as [d|] eqn:Hdb.
  - rewrite (verify_otp_run w d payload Hdb).
    destruct (find_latest _ _ _ _) as [latest|]; [|done].
    case_bool_decide; [|done].
    destruct (expiry_check latest w) as [[[]|e] w0] eqn:Hexp; try done.
    intros Hrun.
    pose proof (expiry_check_db _ _ _ _ Hexp) as Hdb0.
    assert (db w0 = Some d) as Hdb0' by congruence.
    destruct (complete_verification_ok payload w0 d Hdb0')
      as (w' & _ & _ & _ & Hok & _).
    rewrite Hok in Hrun. injection Hrun as <- <-.
    destruct (complete_verification_trace payload w0 w' _ Hok) as (Hc & Ht & Hs);
      [by eexists|].
    rewrite (documents_db "session" w w0 Hdb0) in Hs. simpl.
    apply expiry_check_world in Hexp as [-> | ->]; simpl in *;
      (split; [done|]; split; [lia|]; split; [done|]; exact Hs).
  - by rewrite (proj1 (handlers_need_db w Hdb)).
Qed.

Lemma find_first_app (f : string) (v : str) (l l' : list doc) :
  find_first f v (l ++ l') =
  match find_first f v l with
  | Some d => Some d
  | None => find_first f v l'
  end.
Proof.
  induction l as [|x l IH]; [done|]. simpl.
  rewrite !find_first_cons. by destruct (matches f v x).
Qed.

Lemma documents_nonempty_db (n : string) (w : World) (x : doc) (l l' : list doc) :
  documents n w = l ++ x :: l' -> is_Some (db w).
Proof.
  unfold documents. destruct (db w); [by eexists|].
  intros H. by destruct l.
Qed.

Lemma issued_session_fields (payload : OTPVerifyRequest.t) (tok : str) (w1 : World) :
  matches "token" tok (issued_session payload tok w1) = true /\
  issued_session payload tok w1 !! "farmer_id" = Some (VStr (canonical_id payload)) /\
  issued_session payload tok w1 !! "expires_at"
    = Some (VTime (clock w1 (ticks w1 - 2) + timedelta_days 7)).
Proof.
  repeat split. unfold matches.
  change (issued_session payload tok w1 !! "token") with (Some (VStr tok)).
  by apply bool_decide_eq_true.
Qed.

(** X1: the session a successful verification issues, when its token
    is carried by no earlier session, resolves to the farmer identifier
    of the response at every reading up to seven days after the reading
    taken for its expiry, and is refused with [SessionExpired] at every
    later one, whatever sessions are stored after it. *)
Theorem issued_session_lifetime (w w1 w2 : World) (payload : OTPVerifyRequest.t)
    (r : TokenResponse.t) (later : list doc) :
  verify_otp payload w = (Ok r, w1) ->
  (forall s, s ∈ documents "session" w ->
             matches "token" (TokenResponse.token r) s = false) ->
  documents "session" w2 = documents "session" w1 ++ later ->
  (now w2 <= clock w1 (ticks w1 - 2) + timedelta_days 7 ->
   require_session (TokenResponse.token r) w2
     = (Ok (VStr (TokenResponse.farmer_id r)), tick w2)) /\
  (clock w1 (ticks w1 - 2) + timedelta_days 7 < now w2 ->
   require_session (TokenResponse.token r) w2 = (Raise SessionExpired, tick w2)).
Proof.
  intros Hrun Hfresh Hlater.
  destruct (verify_otp_session w w1 payload r Hrun) as (_ & _ & Hfid & Hs).
  rewrite Hs, <- app_assoc in Hlater. simpl in Hlater.
  destruct (documents_nonempty_db _ _ _ _ _ Hlater) as [d2 Hdb2].
  destruct (issued_session_fields payload (TokenResponse.token r) w1)
    as (Hm & Hf & HE).
  assert (find_first "token" (TokenResponse.token r) (documents "session" w2)
          = Some (issued_session payload (TokenResponse.token r) w1)) as Hfind.
  { rewrite Hlater, find_first_app.
    replace (find_first "token" (TokenResponse.token r) (documents "session" w))
      with (@None doc) by (symmetry; by apply find_first_None).
    by rewrite find_first_cons, Hm. }
  rewrite (require_session_run w2 d2 _ Hdb2), Hfind.
  rewrite (expiry_check_time _ _ w2 HE), Hf, Hfid.
  split; intros Ht.
  - by replace (_ <? now w2) with false by (symmetry; apply Z.ltb_ge; lia).
  - by replace (_ <? now w2) with true by (symmetry; apply Z.ltb_lt; lia).
Qed.

(** X2: no uniqueness of tokens is enforced.  When an earlier,
    unexpired session already carries the token a verification mints,
    the token keeps resolving to the farmer of the earlier session, not
    to the one just verified. *)
Theorem colliding_token_resolves_to_older_session (w w1 : World)
    (payload : OTPVerifyRequest.t) (r : TokenResponse.t) (s0 : doc)
    (E0 : datetime) (f0 : Value) :
  verify_otp payload w = (Ok r, w1) ->
  find_first "token" (TokenResponse.token r) (documents "session" w) = Some s0 ->
  s0 !! "expires_at" = Some (VTime E0) ->
  s0 !! "farmer_id" = Some f0 ->
  now w1 <= E0 ->
  require_session (TokenResponse.token r) w1 = (Ok f0, tick w1).
Proof.
  intros Hrun Hold HE Hf Ht.
  destruct (verify_otp_session w w1 payload r Hrun) as (_ & _ & _ & Hs).
  destruct (documents_nonempty_db "session" w1 _ _ [] Hs) as [d1 Hdb1].
  rewrite (require_session_run w1 d1 _ Hdb1), Hs, find_first_app, Hold.
  rewrite (expiry_check_time _ _ w1 HE), Hf.
  by replace (_ <? now w1) with false by (symmetry; apply Z.ltb_ge; lia).
Qed.

(** X3: a code is not consumed by its use.  After a successful
    verification the challenges are as before, and the same request
    made again before the expiry of the challenge succeeds again and
    stores a second session. *)
Theorem verified_code_is_replayable (w w1 : World) (payload : OTPVerifyRequest.t)
    (r1 : TokenResponse.t) (latest : doc) (E : datetime) :
  verify_otp payload w = (Ok r1, w1) ->
  find_latest "phone" (OTPVerifyRequest.phone payload) "created_at"
              (documents "otprequest" w) = Some latest ->
  latest !! "expires_at" = Some (VTime E) ->
  now w1 <= E ->
  exists r2 w2,
    verify_otp payload w1 = (Ok r2, w2) /\
    documents "otprequest" w2 = documents "otprequest" w /\
    documents "session" w2 =
      documents "session" w
        ++ [issued_session payload (TokenResponse.token r1) w1;
            issued_session payload (TokenResponse.token r2) w2].
Proof.
  intros Hrun Hl HE Ht.
  pose proof (verify_otp_outcome _ _ _ _ Hrun)
    as (_ & _ & _ & _ & _ & _ & [d1 Hdb1] & _ & _ & Ho1).
  destruct (verify_otp_session _ _ _ _ Hrun) as (_ & _ & _ & Hs1).
  assert (dict_get latest "otp" = VStr (OTPVerifyRequest.otp payload)) as Hotp.
  { destruct (db w) as [d|] eqn:Hdb;
      [|by rewrite (proj1 (handlers_need_db w Hdb)) in Hrun].
    rewrite (verify_otp_run w d payload Hdb), Hl in Hrun.
    by case_bool_decide. }
  assert (expiry_check latest w1 = (Ok false, tick w1)) as Hexp.
  { rewrite (expiry_check_time _ _ _ HE).
    by replace (_ <? _) with false by (symmetry; apply Z.ltb_ge; lia). }
  rewrite <- Ho1 in Hl.
  destruct (verify_otp_accepts w1 (tick w1) d1 payload latest Hdb1 Hl Hotp Hexp)
    as (r2 & w2 & Hrun2 & Hdone2).
  exists r2, w2. split; [done|].
  destruct Hdone2 as (_ & _ & _ & _ & _ & _ & _ & _ & _ & Ho2).
  destruct (verify_otp_session _ _ _ _ Hrun2) as (_ & _ & _ & Hs2).
  split; [congruence|]. by rewrite Hs2, Hs1, <- app_assoc.
Qed.

Lemma set_first_other (f : string) (v : str) (upd : doc) (l : list doc)
    (i : nat) (d : doc) :
  l !! i = Some d -> matches f v d = false ->
  set_first f v upd l !! i = Some d.
Proof.
  revert i. induction l as [|x l IH]; intros i Hi Hd; [done|]. simpl.
  destruct i as [|i]; simpl in Hi.
  - injection Hi as ->. by rewrite Hd.
  - destruct (matches f v x); [done|]. simpl. by apply IH.
Qed.

(** X4: whatever its outcome, a verification leaves every stored
    profile that does not match its canonical farmer identifier in
    place and unchanged. *)
Theorem verify_otp_leaves_other_profiles (w w' : World)
    (payload : OTPVerifyRequest.t) (res : Result TokenResponse.t)
    (i : nat) (d : doc) :
  verify_otp payload w = (res, w') ->
  documents "farmer" w !! i = Some d ->
  matches "farmer_id" (canonical_id payload) d = false ->
  documents "farmer" w' !! i = Some d.
Proof.
  intros Hrun Hi Hd.
  pose proof (verify_otp_outcome _ _ _ _ Hrun) as Hout.
  destruct res as [r|e].
  - destruct Hout as (t & _ & _ & _ & _ & _ & _ & Hf & _).
    rewrite Hf. unfold upserted.
    destruct (find_first _ _ _).
    + by apply set_first_other.
    + by apply lookup_app_l_Some.
  - by rewrite (documents_db "farmer" w w' Hout).
Qed.

Lemma expiry_check_true (d : doc) (w w' : World) :
  expiry_check d w = (Ok true, w') ->
  exists E, d !! "expires_at" = Some (VTime E) /\ E < now w.
Proof.
  unfold expiry_check, dict_get, getitem, bind, now_utc, lt_datetime, ret, raise.
  destruct (d !! "expires_at") as [[| b | s | t | l]|]; simpl;
    repeat (case_bool_decide; simpl); try destruct b; simpl; try done.
  intros [= Ht _]. exists t. split; [done|]. by apply Z.ltb_lt.
Qed.

(** X5: there is no renewal.  A token refused with [SessionExpired]
    is refused with [SessionExpired] at every later reading of the
    clock, whatever sessions have been stored since. *)
Theorem expired_session_stays_expired (w w1 w2 : World) (token : str)
    (later : list doc) :
  require_session token w = (Raise SessionExpired, w1) ->
  documents "session" w2 = documents "session" w ++ later ->
  now w <= now w2 ->
  require_session token w2 = (Raise SessionExpired, tick w2).
Proof.
  intros Hrun Hlater Ht.
  destruct (db w) as [d|] eqn:Hdb;
    [|by rewrite (proj2 (handlers_need_db w Hdb)) in Hrun].
  rewrite (require_session_run w d token Hdb) in Hrun.
  destruct (find_first "token" token (documents "session" w)) as [s|] eqn:Hs;
    [|done].
  destruct (expiry_check s w) as [[[]|e] w0] eqn:Hexp.
  - apply expiry_check_true in Hexp as (E & HE & HEt).
    assert (is_Some (db w2)) as [d2 Hdb2].
    { apply find_first_elem in Hs. apply list_elem_of_split in Hs as (l1 & l2 & Hs).
      rewrite Hs, <- app_assoc in Hlater. simpl in Hlater.
      by eapply documents_nonempty_db. }
    rewrite (require_session_run w2 d2 token Hdb2), Hlater, find_first_app, Hs.
    rewrite (expiry_check_time s E w2 HE).
    by replace (E <? now w2) with true by (symmetry; apply Z.ltb_lt; lia).
  - by destruct (s !! "farmer_id").
  - injection Hrun as -> _.
    revert Hexp. unfold expiry_check, dict_get, getitem, bind, now_utc, lt_datetime, ret, raise.
    destruct (s !! "expires_at") as [[| b | s' | t | l]|]; simpl;
      repeat (case_bool_decide; simpl); try destruct b; simpl; done.
Qed.

Lemma uint_digits_are_digits (u : Decimal.uint) : Forall is_digit (uint_digits u).
Proof. induction u; simpl; constructor; try done; unfold is_digit; lia. Qed.

Lemma digits_uint_uint_digits (u : Decimal.uint) : digits_uint (uint_digits u) = u.
Proof. induction u; simpl; by f_equal. Qed.

Lemma digits_uint_zeros (k : nat) (s : str) :
  digits_uint (replicate k 48%N ++ s) = Nat.iter k D0 (digits_uint s).
Proof. induction k as [|k IH]; simpl; by f_equal. Qed.

Lemma uint_digits_length (u : Decimal.uint) :
  N.of_nat (length (uint_digits u)) = DecimalPos.Unsigned.usize u.
Proof.
  induction u; simpl DecimalPos.Unsigned.usize; simpl length; try done;
    rewrite Nat2N.inj_succ; by f_equal.
Qed.

Lemma to_uint_normal (n : N) : Decimal.unorm (N.to_uint n) = N.to_uint n.
Proof. rewrite <- (DecimalN.Unsigned.of_to n) at 2. symmetry. apply DecimalN.Unsigned.to_of. Qed.

Lemma of_lu_rev_lower (u : Decimal.uint) :
  u <> Nil -> Decimal.nzhead u = u ->
  (10 ^ DecimalPos.Unsigned.usize (DecimalPos.Unsigned.tl u)
   <= DecimalPos.Unsigned.of_lu (Decimal.rev u))%N.
Proof.
  intros Hnil Hnz.
  destruct u as [|u|u|u|u|u|u|u|u|u|u];
    [done | exfalso; by apply (DecimalFacts.nzhead_nonzero (D0 u) u) | ..];
    unfold Decimal.rev; simpl Decimal.revapp;
    rewrite DecimalPos.Unsigned.of_lu_revapp; simpl DecimalPos.Unsigned.tl;
    simpl DecimalPos.Unsigned.of_lu; lia.
Qed.

Lemma to_uint_digits_bound (n : N) :
  (n < 1000000)%N -> (length (uint_digits (N.to_uint n)) <= 6)%nat.
Proof.
  intros Hn. destruct n as [|p]; [simpl; lia|].
  pose proof (to_uint_normal (Npos p)) as Hnorm.
  pose proof (DecimalN.Unsigned.of_to (Npos p)) as Hval.
  simpl N.to_uint in *. set (u := Pos.to_uint p) in *.
  assert (u <> Nil) as Hnil by apply DecimalPos.Unsigned.to_uint_nonnil.
  assert (Decimal.nzhead u = u) as Hnz.
  { destruct (Decimal.nzhead u) eqn:Hh;
      [ exfalso; apply (DecimalPos.Unsigned.to_uint_nonzero p);
        fold u; rewrite <- Hnorm; unfold Decimal.unorm; by rewrite Hh
      | .. ];
      rewrite <- Hh; rewrite <- Hnorm at 2; symmetry;
      apply DecimalFacts.unorm_nzhead; by rewrite Hh. }
  pose proof (of_lu_rev_lower u Hnil Hnz) as Hlow.
  unfold N.of_uint in Hval. rewrite DecimalPos.Unsigned.of_uint_alt in Hval.
  rewrite Hval in Hlow.
  assert (DecimalPos.Unsigned.usize (DecimalPos.Unsigned.tl u) < 6)%N as Hsz.
  { apply (N.pow_lt_mono_r_iff 10); lia. }
  pose proof (uint_digits_length u) as Hlen.
  destruct u; [done|..]; simpl DecimalPos.Unsigned.usize in *;
    simpl DecimalPos.Unsigned.tl in *; lia.
Qed.

Lemma format_06d_length (n : N) :
  (n < 1000000)%N -> length (format_06d n) = 6%nat.
Proof.
  intros Hn. unfold format_06d. rewrite length_app, length_replicate.
  pose proof (to_uint_digits_bound n Hn). lia.
Qed.

Lemma format_06d_digits (n : N) : Forall is_digit (format_06d n).
Proof.
  unfold format_06d. apply Forall_app. split.
  - apply Forall_replicate. unfold is_digit. lia.
  - apply uint_digits_are_digits.
Qed.

Lemma format_06d_value (n : N) : N.of_uint (digits_uint (format_06d n)) = n.
Proof.
  unfold format_06d. rewrite digits_uint_zeros, digits_uint_uint_digits.
  rewrite <- DecimalN.Unsigned.of_uint_norm, DecimalFacts.unorm_iter_D0.
  rewrite DecimalN.Unsigned.of_uint_norm. apply DecimalN.Unsigned.of_to.
Qed.

(** X6: the code [request_otp] returns has exactly six characters, all
    decimal digits, and read as a number it is the draw modulo
    1000000. *)
Theorem issued_code_is_six_digits (req : OTPStartRequest.t) (w : World)
    (d : Database) :
  db w = Some d ->
  exists sent w1,
    request_otp req w = (Ok sent, w1) /\
    length (OTPSent.demo_otp sent) = 6%nat /\
    Forall is_digit (OTPSent.demo_otp sent) /\
    N.of_uint (digits_uint (OTPSent.demo_otp sent))
      = (entropy w (draws w) mod 1000000)%N.
Proof.
  intros Hdb. do 2 eexists. split; [by apply request_otp_run|]. simpl.
  unfold issued_code. split; [|split].
  - apply format_06d_length. by apply N.mod_lt.
  - apply format_06d_digits.
  - apply format_06d_value.
Qed.

(** ** The further properties on the example stores *)

Lemma verified_world_ex_run :
  verify_otp (verify_ex "483920") verified_world_ex
  = (Ok (TokenResponse.mk token_ex phone_ex 604800),
     snd (verify_otp (verify_ex "483920") verified_world_ex)).
Proof. apply run_pair. vm_compute. reflexivity. Qed.

Lemma issued_session_lifetime_witness :
  require_session token_ex
    (snd (verify_otp (verify_ex "483920") verified_world_ex))
  = (Ok (VStr phone_ex),
     tick (snd (verify_otp (verify_ex "483920") verified_world_ex))).
Proof.
  refine (proj1 (issued_session_lifetime verified_world_ex _ _
                   (verify_ex "483920")
                   (TokenResponse.mk token_ex phone_ex 604800) []
                   verified_world_ex_run _ _) _).
  - intros s Hs. vm_compute in Hs. inversion Hs.
  - symmetry. apply app_nil_r.
  - vm_compute. discriminate.
Defined.

Lemma colliding_token_witness :
  require_session token_ex
    (snd (verify_otp (verify_ex "483920")
            (world_at 1000 (store [challenge_ex (VTime 5000)] []
                                  [foreign_session_ex]))))
  = (Ok (VStr (py "F-0042")),
     tick (snd (verify_otp (verify_ex "483920")
            (world_at 1000 (store [challenge_ex (VTime 5000)] []
                                  [foreign_session_ex]))))).
Proof.
  refine (colliding_token_resolves_to_older_session
            (world_at 1000 (store [challenge_ex (VTime 5000)] []
                                  [foreign_session_ex])) _
            (verify_ex "483920")
            (TokenResponse.mk token_ex phone_ex 604800)
            foreign_session_ex 99999 (VStr (py "F-0042")) _ _ _ _ _).
  - apply run_pair. vm_compute. reflexivity.
  - reflexivity.
  - reflexivity.
  - reflexivity.
  - vm_compute. discriminate.
Defined.

Lemma verified_code_is_replayable_witness :
  exists r2 w2,
    verify_otp (verify_ex "483920")
      (snd (verify_otp (verify_ex "483920") verified_world_ex))
    = (Ok r2, w2) /\
    length (documents "session" w2) = 2%nat.
Proof.
  destruct (verified_code_is_replayable verified_world_ex _
              (verify_ex "483920")
              (TokenResponse.mk token_ex phone_ex 604800)
              (challenge_ex (VTime 5000)) 5000
              verified_world_ex_run eq_refl eq_refl)
    as (r2 & w2 & Hrun & _ & Hs).
  - vm_compute. discriminate.
  - exists r2, w2. split; [exact Hrun|]. rewrite Hs. reflexivity.
Defined.

Lemma verify_otp_leaves_other_profiles_witness :
  documents "farmer"
    (snd (verify_otp (verify_ex "483920")
            (world_at 1000 (store [challenge_ex (VTime 5000)]
                                  [foreign_profile_ex] [])))) !! 0%nat
  = Some foreign_profile_ex.
Proof.
  refine (verify_otp_leaves_other_profiles
            (world_at 1000 (store [challenge_ex (VTime 5000)]
                                  [foreign_profile_ex] [])) _
            (verify_ex "483920") _ 0 foreign_profile_ex _ _ _).
  - apply surjective_pairing.
  - reflexivity.
  - reflexivity.
Defined.

Lemma expired_session_stays_expired_witness :
  require_session token_ex
    (world_at 3000 (store [] [] [session_ex (VTime 1000)]))
  = (Raise SessionExpired,
     tick (world_at 3000 (store [] [] [session_ex (VTime 1000)]))).
Proof.
  refine (expired_session_stays_expired
            (world_at 2000 (store [] [] [session_ex (VTime 1000)])) _ _
            token_ex [] _ _ _).
  - reflexivity.
  - reflexivity.
  - unfold now; simpl; lia.
Defined.

Lemma issued_code_is_six_digits_witness :
  exists sent w1,
    request_otp (OTPStartRequest.mk phone_ex None)
                (world_at 1000 (store [] [] [])) = (Ok sent, w1) /\
    length (OTPSent.demo_otp sent) = 6%nat.
Proof.
  destruct (issued_code_is_six_digits (OTPStartRequest.mk phone_ex None)
              (world_at 1000 (store [] [] [])) (store [] [] []) eq_refl)
    as (sent & w1 & Hrun & Hlen & _).
  exists sent, w1. split; [exact Hrun | exact Hlen].
Defined.

(** * Further properties of the masked phone and of the image heuristic *)

Lemma mask_prefix_fixed (s : str) :
  replace 49%N 42%N (replace 48%N 42%N s) = s <->
  Forall (fun c => c <> 48%N /\ c <> 49%N) s.
Proof.
  unfold replace. induction s as [|c s IH]; simpl.
  - split; [constructor | done].
  - split.
    + intros [= Hc Hs]. constructor; [|by apply IH].
      repeat case_bool_decide; subst; done.
    + intros Hall. apply Forall_cons in Hall as [[H0 H1] Hs].
      f_equal; [|by apply IH].
      rewrite (bool_decide_eq_false_2 (c = 48%N)) by done.
      by rewrite bool_decide_eq_false_2.
Qed.

(** X7: the phone number in the answer of [request_otp] is the one
    received, with nothing masked, exactly when no "0" and no "1" stands
    before its last four characters; a number of four characters or
    fewer is therefore always returned whole. *)
Theorem masked_phone_unmasked_iff (req : OTPStartRequest.t) (w : World)
    (d : Database) :
  db w = Some d ->
  exists sent w1,
    request_otp req w = (Ok sent, w1) /\
    (OTPSent.phone sent = OTPStartRequest.phone req <->
     Forall (fun c => c <> 48%N /\ c <> 49%N)
            (all_but_last4 (OTPStartRequest.phone req))) /\
    ((length (OTPStartRequest.phone req) <= 4)%nat ->
     OTPSent.phone sent = OTPStartRequest.phone req).
Proof.
  intros Hdb. do 2 eexists. split; [by apply request_otp_run|]. simpl.
  set (P := OTPStartRequest.phone req).
  assert (mask_phone P = P <->
          Forall (fun c => c <> 48%N /\ c <> 49%N) (all_but_last4 P)) as Hiff.
  { unfold mask_phone.
    assert (P = all_but_last4 P ++ last4 P) as HP
      by (unfold all_but_last4, last4; by rewrite take_drop).
    rewrite <- mask_prefix_fixed. split.
    - intros Heq. rewrite HP in Heq at 3. by apply app_inv_tail in Heq.
    - intros Heq. rewrite HP at 3. by f_equal. }
  split; [exact Hiff|].
  intros Hshort. apply Hiff. unfold all_but_last4.
  replace (length P - 4)%nat with 0%nat by lia. constructor.
Qed.

Lemma masked_phone_unmasked_iff_witness :
  exists sent w1,
    request_otp (OTPStartRequest.mk (py "987") None)
                (world_at 1000 (store [] [] [])) = (Ok sent, w1) /\
    OTPSent.phone sent = py "987".
Proof.
  destruct (masked_phone_unmasked_iff (OTPStartRequest.mk (py "987") None)
              (world_at 1000 (store [] [] [])) (store [] [] []) eq_refl)
    as (sent & w1 & Hrun & _ & Hshort).
  exists sent, w1. split; [exact Hrun|]. apply Hshort. simpl. lia.
Defined.

Lemma sum_bytes_perm (a b : list byte) : a ≡ₚ b -> sum_bytes a = sum_bytes b.
Proof.
  unfold sum_bytes. induction 1; simpl; lia.
Qed.

(** X8: [disease_detect] looks at nothing but the size of the upload
    and the bytes among its first 5000, whatever their order.  An upload
    shorter than 10000 bytes gets the low-confidence answer whatever it
    holds; two uploads of at least 10000 bytes whose first 5000 bytes
    are a rearrangement of each other get the same answer. *)
Theorem disease_detect_reads_size_and_prefix (file file' : list byte)
    (crop token token' : option str) (w w' : World) :
  (Z.of_nat (length file) < 10000 ->
   fst (disease_detect file crop token w) =
     Ok (Diagnosis.mk crop
           "Low confidence: image too small. Possible nutrient deficiency."
           "Apply balanced micronutrient spray; retake a clearer photo.")) /\
  (10000 <= Z.of_nat (length file) -> 10000 <= Z.of_nat (length file') ->
   take 5000 file ≡ₚ take 5000 file' ->
   fst (disease_detect file crop token w)
     = fst (disease_detect file' crop token' w')).
Proof.
  unfold disease_detect. split.
  - intros Hlen. by replace (_ <? 10000) with true by (symmetry; apply Z.ltb_lt; lia).
  - intros Hlen Hlen' Hperm.
    replace (Z.of_nat (length file) <? 10000) with false
      by (symmetry; apply Z.ltb_ge; lia).
    replace (Z.of_nat (length file') <? 10000) with false
      by (symmetry; apply Z.ltb_ge; lia).
    rewrite (sum_bytes_perm _ _ Hperm).
    destruct (60 <? _); [done|]. by destruct (30 <? _).
Qed.

Lemma disease_detect_reads_size_and_prefix_witness :
  fst (disease_detect ["x"; "y"; "z"]%byte None None
                      (world_at 0 (store [] [] []))) =
  Ok (Diagnosis.mk None
        "Low confidence: image too small. Possible nutrient deficiency."
        "Apply balanced micronutrient spray; retake a clearer photo.").
Proof.
  apply (proj1 (disease_detect_reads_size_and_prefix
                  ["x"; "y"; "z"]%byte [] None None None
                  (world_at 0 (store [] [] [])) (world_at 0 (store [] [] [])))).
  simpl. lia.
Defined.

(** * Properties of the advisory endpoints *)

Lemma find_schemes_loop_filter (lower : str -> str) (query : SchemeQuery.t)
    (schemes res : list Scheme.t) :
  find_schemes_loop lower query schemes res
  = res ++ filter (fun s => scheme_passes lower query s = true) schemes.
Proof.
  revert res. induction schemes as [|s rest IH]; intros res; simpl.
  - by rewrite app_nil_r.
  - rewrite filter_cons.
    case_decide as Hp; unfold scheme_passes in Hp;
      destruct (truthy_opt (SchemeQuery.state query)
                && truthy_opt (Scheme.state s) && negb _);
      destruct (truthy_opt (SchemeQuery.crop query)
                && truthy_opt (Scheme.crop_types s) && negb _);
      simpl in Hp; try done; rewrite IH; try done.
    by rewrite <- app_assoc.
Qed.

Lemma unrestricted_scheme_passes (lower : str -> str) (query : SchemeQuery.t)
    (s : Scheme.t) :
  Scheme.state s = None -> Scheme.crop_types s = None ->
  scheme_passes lower query s = true.
Proof.
  intros Hs Hc. unfold scheme_passes. rewrite Hs, Hc. simpl.
  by rewrite !andb_false_r.
Qed.

(** X9: whatever the query, [find_schemes] answers with the three
    nationwide schemes, in the order of the table, followed by the
    Tamil Nadu scheme exactly when the query names no state or a state
    that lowers to the same string as "Tamil Nadu", and names no crop
    or one of "Paddy", "Sugarcane", "Vegetables" spelled exactly so. *)
Theorem find_schemes_answer (lower : str -> str) (query : SchemeQuery.t) :
  find_schemes lower query =
  map model_dump
    (take 3 SCHEMES ++
     (if (negb (truthy_opt (SchemeQuery.state query))
          || bool_decide (lower (py "Tamil Nadu")
                          = lower (default [] (SchemeQuery.state query))))
         && (negb (truthy_opt (SchemeQuery.crop query))
             || bool_decide (default [] (SchemeQuery.crop query)
                             ∈ [py "Paddy"; py "Sugarcane"; py "Vegetables"]))
      then drop 3 SCHEMES else [])).
Proof.
  unfold find_schemes. rewrite find_schemes_loop_filter. simpl app at 1.
  f_equal. unfold SCHEMES.
  rewrite !filter_cons_True by (by apply unrestricted_scheme_passes).
  simpl take. simpl drop. simpl app at 1. do 3 f_equal.
  rewrite filter_cons, filter_nil.
  unfold scheme_passes. simpl Scheme.state. simpl Scheme.crop_types.
  simpl default at 1 3 4.
  change (truthy_opt (Some (py "Tamil Nadu"))) with true.
  change (truthy_opt (Some [py "Paddy"; py "Sugarcane"; py "Vegetables"])) with true.
  rewrite !andb_true_r.
  destruct (truthy_opt (SchemeQuery.state query));
    destruct (truthy_opt (SchemeQuery.crop query)); simpl;
    repeat case_bool_decide; simpl; try case_decide;
    first [reflexivity | done].
Qed.

Lemma contains_occurs (k q : str) : contains k q = true <-> occurs k q.
Proof.
  induction q as [|c q IH]; simpl.
  - rewrite orb_false_r, bool_decide_eq_true. split.
    + intros [b Hb]. exists [], b. done.
    + intros (a & b & Hq). symmetry in Hq.
      apply app_eq_nil in Hq as [-> Hq]. apply app_eq_nil in Hq as [-> ->].
      by exists [].
  - rewrite orb_true_iff, bool_decide_eq_true, IH. split.
    + intros [[b Hb] | (a & b & Hq)].
      * exists [], b. done.
      * exists (c :: a), b. simpl. by rewrite Hq.
    + intros (a & b & Hq). destruct a as [|c' a]; simpl in Hq.
      * left. by exists b.
      * right. injection Hq as _ Hq. by exists a, b.
Qed.

Lemma contains_not_occurs (k q : str) : contains k q = false <-> ~ occurs k q.
Proof. rewrite <- contains_occurs. by destruct (contains k q). Qed.

(** X10: [chat] answers a message whose text is a string by the first
    keyword of the table that occurs in the lowered text: "loan" before
    "soil" before "irrigation", and the fallback sentence when none
    occurs. *)
Theorem chat_keyword_precedence (lower : str -> str) (message : body) (s : str) :
  message !! py "text" = Some (JStr s) ->
  (occurs (py "loan") (lower s) -> chat lower message = inr loan_reply) /\
  (~ occurs (py "loan") (lower s) -> occurs (py "soil") (lower s) ->
   chat lower message = inr soil_reply) /\
  (~ occurs (py "loan") (lower s) -> ~ occurs (py "soil") (lower s) ->
   occurs (py "irrigation") (lower s) ->
   chat lower message = inr irrigation_reply) /\
  (~ occurs (py "loan") (lower s) -> ~ occurs (py "soil") (lower s) ->
   ~ occurs (py "irrigation") (lower s) ->
   chat lower message = inr fallback_reply).
Proof.
  intros Htext.
  assert (chat lower message = inr (first_faq (lower s) faqs)) as ->.
  { unfold chat, body_get. rewrite Htext. simpl.
    case_bool_decide as Hs; simpl; [by rewrite Hs | done]. }
  unfold faqs, first_faq.
  repeat split; intros; 
    repeat (first [ rewrite (proj2 (contains_occurs _ _)) by done
                  | rewrite (proj2 (contains_not_occurs _ _)) by done ]);
    done.
Qed.

Lemma chat_keyword_precedence_witness :
  chat ascii_lower {[ py "text" := JStr (py "Is a LOAN available for soil testing?") ]}
  = inr loan_reply.
Proof.
  apply (proj1 (chat_keyword_precedence ascii_lower _
                  (py "Is a LOAN available for soil testing?")
                  (lookup_singleton_eq _ _))).
  apply contains_occurs. vm_compute. reflexivity.
Defined.

(** X11: a message with no text, or with a text that is false (null,
    false, 0, 0.0, the empty string, list or object), gets the
    fallback sentence; a text that is true and not a string (a number,
    true, a non-empty list or object) makes [chat] raise
    [AttributeError]. *)
Theorem chat_text_not_a_string (lower : str -> str) (message : body) :
  lower [] = [] ->
  (json_truthy (body_get message "text" JNull) = false ->
   chat lower message = inr fallback_reply) /\
  (json_truthy (body_get message "text" JNull) = true ->
   (forall s, body_get message "text" JNull <> JStr s) ->
   chat lower message = inl (AttributeError "lower")).
Proof.
  intros Hnil. unfold chat. split.
  - intros ->. by rewrite Hnil.
  - intros -> Hstr. destruct (body_get message "text" JNull); try done.
    by destruct (Hstr s).
Qed.

Lemma chat_text_not_a_string_witness :
  chat ascii_lower ∅ = inr fallback_reply /\
  chat ascii_lower {[ py "text" := JInt 5 ]} = inl (AttributeError "lower").
Proof.
  split.
  - apply (proj1 (chat_text_not_a_string ascii_lower ∅ eq_refl)). reflexivity.
  - apply (proj2 (chat_text_not_a_string ascii_lower
                    {[ py "text" := JInt 5 ]} eq_refl)); [reflexivity|].
    intros s Hs. vm_compute in Hs. discriminate.
Defined.

Set Warnings "-inexact-float,-clear-no-such-hyp".

Lemma json_lt_number (a b : Json) :
  is_number b = true ->
  (is_number a = true -> exists r, json_lt a b = Ok r) /\
  (is_number a = false -> json_lt a b = Raise TypeError).
Proof.
  intros Hb. split; intros Ha.
  - destruct a; try done; destruct b; try done; by eexists.
  - destruct a; try done; destruct b; done.
Qed.

Lemma body_get_cases (d : body) (k : string) (default : Json) :
  (d !! py k = None /\ body_get d k default = default) \/
  (exists v, d !! py k = Some v /\ body_get d k default = v).
Proof.
  unfold body_get. destruct (d !! py k) as [v|]; [right; by exists v | by left].
Qed.

(** X12: [soil_analysis] returns exactly when each of "ph", "organic"
    and "moisture" that the body holds is a number (an int, a float or a
    bool); it then reports the status "Moderate" and at least one piece
    of advice.  When one of them is anything else (null, a string, a
    list, an object) it raises [TypeError]. *)
Theorem soil_analysis_returns_iff_numbers (params : body) :
  ((forall k v, k ∈ ["ph"; "organic"; "moisture"] ->
                params !! py k = Some v -> is_number v = true) ->
   exists r, soil_analysis params = Ok r /\
             SoilReport.status r = "Moderate" /\
             SoilReport.advice r <> []) /\
  ((exists k v, k ∈ ["ph"; "organic"; "moisture"] /\
                params !! py k = Some v /\ is_number v = false) ->
   soil_analysis params = Raise TypeError).
Proof.
  assert (forall k dflt, k ∈ ["ph"; "organic"; "moisture"] ->
            is_number dflt = true ->
            (forall k v, k ∈ ["ph"; "organic"; "moisture"] ->
                         params !! py k = Some v -> is_number v = true) ->
            is_number (body_get params k dflt) = true) as Hnum.
  { intros k dflt Hk Hd Hall.
    destruct (body_get_cases params k dflt) as [[_ ->] | (v & Hv & ->)];
      [done | by apply (Hall k)]. }
  split.
  - intros Hall. unfold soil_analysis.
    destruct (proj1 (json_lt_number (body_get params "ph" (JFloat 6.8))
                       (JFloat 6.5) eq_refl)) as [b1 ->];
      [apply Hnum; [set_solver | done | done]|].
    destruct (proj1 (json_lt_number (body_get params "organic" (JFloat 1.2))
                       (JFloat 1.5) eq_refl)) as [b2 ->];
      [apply Hnum; [set_solver | done | done]|].
    destruct (proj1 (json_lt_number (body_get params "moisture" (JInt 45))
                       (JInt 40) eq_refl)) as [b3 ->];
      [apply Hnum; [set_solver | done | done]|].
    eexists. split; [done|]. split; [done|].
    by destruct b1, b2, b3.
  - intros (k & v & Hk & Hv & Hbad). unfold soil_analysis.
    assert (forall k' dflt, k' = k -> body_get params k' dflt = v) as Hget.
    { intros k' dflt ->. unfold body_get. by rewrite Hv. }
    destruct (is_number (body_get params "ph" (JFloat 6.8))) eqn:H1;
      [|by rewrite (proj2 (json_lt_number _ (JFloat 6.5) eq_refl) H1)].
    destruct (proj1 (json_lt_number _ (JFloat 6.5) eq_refl) H1) as [b1 ->].
    destruct (is_number (body_get params "organic" (JFloat 1.2))) eqn:H2;
      [|by rewrite (proj2 (json_lt_number _ (JFloat 1.5) eq_refl) H2)].
    destruct (proj1 (json_lt_number _ (JFloat 1.5) eq_refl) H2) as [b2 ->].
    destruct (is_number (body_get params "moisture" (JInt 45))) eqn:H3;
      [|by rewrite (proj2 (json_lt_number _ (JInt 40) eq_refl) H3)].
    exfalso.
    apply elem_of_cons in Hk as [-> | Hk];
      [rewrite (Hget "ph") in H1 by done; congruence|].
    apply elem_of_cons in Hk as [-> | Hk];
      [rewrite (Hget "organic") in H2 by done; congruence|].
    apply list_elem_of_singleton in Hk as ->.
    rewrite (Hget "moisture") in H3 by done. congruence.
Qed.

Lemma int_ltb_6_5 (z : Z) : int_ltb_float z 6.5 = (z <=? 6).
Proof.
  unfold int_ltb_float.
  change (FloatOps.Prim2SF 6.5) with (SpecFloat.S754_finite false 7318349394477056 (-50)).
  simpl. destruct (z <=? 6) eqn:H; [apply Z.ltb_lt | apply Z.ltb_ge]; lia.
Qed.

(** X13: the advice of [soil_analysis] is never empty: it is either the
    single sentence "Maintain current practices" or some of the lime,
    manure and drip advice, in that order.  A body without "organic"
    always gets the manure advice, one without "ph" never gets the lime
    advice and one without "moisture" never the drip advice; an integer
    ph gets the lime advice exactly when it is at most 6, and an integer
    moisture the drip advice exactly when it is below 40. *)
Theorem soil_analysis_advice (params : body) (r : SoilReport.t) :
  soil_analysis params = Ok r ->
  SoilReport.advice r <> [] /\
  (SoilReport.advice r = ["Maintain current practices"] \/
   SoilReport.advice r `sublist_of` [lime_advice; manure_advice; drip_advice]) /\
  (params !! py "organic" = None -> manure_advice ∈ SoilReport.advice r) /\
  (params !! py "ph" = None -> lime_advice ∉ SoilReport.advice r) /\
  (params !! py "moisture" = None -> drip_advice ∉ SoilReport.advice r) /\
  (forall z, params !! py "ph" = Some (JInt z) ->
             (lime_advice ∈ SoilReport.advice r <-> z <= 6)) /\
  (forall z, params !! py "moisture" = Some (JInt z) ->
             (drip_advice ∈ SoilReport.advice r <-> z < 40)).
Proof.
  unfold soil_analysis.
  destruct (json_lt (body_get params "ph" _) _) as [b1|] eqn:H1; [|done].
  destruct (json_lt (body_get params "organic" _) _) as [b2|] eqn:H2; [|done].
  destruct (json_lt (body_get params "moisture" _) _) as [b3|] eqn:H3; [|done].
  intros [= <-]. simpl.
  assert (params !! py "organic" = None -> b2 = true) as Ho.
  { intros Hn. unfold body_get in H2. rewrite Hn in H2. by injection H2 as <-. }
  assert (params !! py "ph" = None -> b1 = false) as Hp.
  { intros Hn. unfold body_get in H1. rewrite Hn in H1. by injection H1 as <-. }
  assert (params !! py "moisture" = None -> b3 = false) as Hm.
  { intros Hn. unfold body_get in H3. rewrite Hn in H3. by injection H3 as <-. }
  assert (forall z, params !! py "ph" = Some (JInt z) -> b1 = (z <=? 6)) as Hpz.
  { intros z Hz. unfold body_get in H1. rewrite Hz in H1. simpl in H1.
    injection H1 as <-. apply int_ltb_6_5. }
  assert (forall z, params !! py "moisture" = Some (JInt z) -> b3 = (z <? 40)) as Hmz.
  { intros z Hz. unfold body_get in H3. rewrite Hz in H3. by injection H3 as <-. }
  unfold lime_advice, manure_advice, drip_advice.
  split; [by destruct b1, b2, b3|].
  split.
  { destruct b1, b2, b3; simpl; first [by left | right];
      repeat first [ apply sublist_skip | apply sublist_cons | apply sublist_nil ];
      by repeat constructor. }
  split; [intros Hn; rewrite (Ho Hn); destruct b1, b3; set_solver|].
  split; [intros Hn; rewrite (Hp Hn); destruct b2, b3; set_solver|].
  split; [intros Hn; rewrite (Hm Hn); destruct b1, b2; set_solver|].
  split.
  - intros z Hz. rewrite (Hpz z Hz).
    destruct (z <=? 6) eqn:Hle; [apply Z.leb_le in Hle | apply Z.leb_gt in Hle];
      destruct b2, b3; simpl; split; intros; try lia; set_solver.
  - intros z Hz. rewrite (Hmz z Hz).
    destruct (z <? 40) eqn:Hlt; [apply Z.ltb_lt in Hlt | apply Z.ltb_ge in Hlt];
      destruct b1, b2; simpl; split; intros; try lia; set_solver.
Qed.

Lemma soil_analysis_advice_witness :
  lime_advice ∈
    SoilReport.advice (SoilReport.mk "Moderate" [lime_advice; manure_advice]).
Proof.
  assert (soil_analysis {[ py "ph" := JInt 6 ]}
          = Ok (SoilReport.mk "Moderate" [lime_advice; manure_advice])) as Hrun
    by (vm_compute; reflexivity).
  destruct (soil_analysis_advice _ _ Hrun) as (_ & _ & _ & _ & _ & Hph & _).
  apply (Hph 6 (lookup_singleton_eq _ _)). lia.
Defined.

Lemma stamp_rows_run (isoformat : datetime -> str) (state : option str)
    (data : list (gmap string Json)) (w : World) :
  exists rows w',
    stamp_rows isoformat state data w = (Ok rows, w') /\
    db w' = db w /\ clock w' = clock w /\
    ticks w' = (ticks w + length data)%nat /\
    length rows = length data /\
    forall i r, rows !! i = Some r ->
      exists b, data !! i = Some b /\
        r = <["last_updated" := JStr (isoformat (clock w (ticks w + i)))]>
              (<["state" := JStr (if truthy_opt state
                                  then default [] state else [])]> b).
Proof.
  revert w. induction data as [|b data IH]; intros w.
  - exists [], w. simpl. repeat split; try done; lia.
  - destruct (IH (tick w)) as (rows & w' & Hrun & Hdb & Hclock & Hticks & Hlen & Hrows).
    eexists _, w'. simpl. unfold bind, now_utc. rewrite Hrun. simpl.
    split; [reflexivity|]. split; [done|]. split; [done|].
    split; [simpl in Hticks; lia|]. split; [simpl; lia|].
    intros [|i] r Hr; simpl in Hr.
    + injection Hr as <-. exists b. split; [done|].
      unfold now. by rewrite Nat.add_0_r.
    + destruct (Hrows i r Hr) as (b' & Hb' & ->). exists b'. split; [done|].
      simpl. by rewrite Nat.add_succ_r.
Qed.

(** The answer of the stamping loop, row by row. *)
Lemma stamp_rows_imap (isoformat : datetime -> str) (state : option str)
    (data : list (gmap string Json)) (w : World) :
  exists w',
    stamp_rows isoformat state data w
    = (Ok (imap (fun i b =>
                   <["last_updated" := JStr (isoformat (clock w (ticks w + i)))]>
                     (<["state" := JStr (if truthy_opt state
                                         then default [] state else [])]> b))
                data), w') /\
    db w' = db w /\ ticks w' = (ticks w + length data)%nat.
Proof.
  destruct (stamp_rows_run isoformat state data w)
    as (rows & w' & Hrun & Hdb & _ & Hticks & Hlen & Hrows).
  exists w'. split; [|done]. rewrite Hrun. do 2 f_equal.
  apply list_eq. intros i. rewrite list_lookup_imap.
  destruct (rows !! i) as [r|] eqn:Hr.
  - destruct (Hrows i r Hr) as (b & -> & ->). done.
  - apply lookup_ge_None in Hr. rewrite Hlen in Hr.
    apply lookup_ge_None in Hr. by rewrite Hr.
Qed.

(** X14: [market_updates] never raises and never writes.  Its answer is
    the table itself, all three rows in the order of the table, when no
    crop is asked for, and otherwise the rows of the table whose crop
    lowers to the same string as the crop asked for, in the order of
    the table; every row of the answer is the row of the table with the
    state asked for, or the empty string, and the ISO form of its own
    reading of the clock added, the readings being taken one per row in
    the order of the answer. *)
Theorem market_updates_rows (lower : str -> str) (isoformat : datetime -> str)
    (crop state : option str) (w : World) :
  exists rows w',
    market_updates lower isoformat crop state w = (Ok rows, w') /\
    db w' = db w /\
    ticks w' = (ticks w + length rows)%nat /\
    (length rows <= 3)%nat /\
    (truthy_opt crop = false -> length rows = 3%nat) /\
    (forall i r, rows !! i = Some r ->
      r !! "state" = Some (JStr (if truthy_opt state
                                 then default [] state else [])) /\
      r !! "last_updated" = Some (JStr (isoformat (clock w (ticks w + i)))) /\
      exists b, b ∈ market_base /\
        r !! "crop" = b !! "crop" /\ r !! "min" = b !! "min" /\
        r !! "max" = b !! "max" /\ r !! "unit" = b !! "unit" /\
        (truthy_opt crop = true -> crop_is lower (default [] crop) b = true)) /\
    (truthy_opt crop = false ->
     rows = imap (fun i b =>
                    <["last_updated" := JStr (isoformat (clock w (ticks w + i)))]>
                      (<["state" := JStr (if truthy_opt state
                                          then default [] state else [])]> b))
                 market_base) /\
    (truthy_opt crop = true ->
     rows = imap (fun i b =>
                    <["last_updated" := JStr (isoformat (clock w (ticks w + i)))]>
                      (<["state" := JStr (if truthy_opt state
                                          then default [] state else [])]> b))
                 (filter (fun b => crop_is lower (default [] crop) b = true)
                         market_base)).
Proof.
  unfold market_updates.
  set (data := filter _ market_base).
  destruct (stamp_rows_imap isoformat state data w) as (w' & Hrun & Hdb & Hticks).
  eexists _, w'. split; [exact Hrun|]. split; [done|].
  rewrite length_imap.
  split; [done|].
  split; [apply (length_filter _ market_base)|].
  split; [intros Hcrop; unfold data; rewrite Hcrop; reflexivity|].
  split; [|split].
  - intros i r Hr. rewrite list_lookup_imap in Hr.
    destruct (data !! i) as [b|] eqn:Hb; [|done]. injection Hr as <-.
    split; [by rewrite lookup_insert_ne, lookup_insert_eq|].
    split; [by rewrite lookup_insert_eq|].
    exists b. apply list_elem_of_lookup_2 in Hb.
    apply list_elem_of_filter in Hb as [Hpass Hin].
    split; [done|]. repeat split; try by rewrite !lookup_insert_ne.
    intros Hcrop. rewrite Hcrop in Hpass. by simpl in Hpass.
  - intros Hcrop. unfold data. rewrite Hcrop. reflexivity.
  - intros Hcrop. unfold data. rewrite Hcrop. reflexivity.
Qed.
